(** * In-place table rendering: the viewport scan and the write-back reaction

    A shallow embedding of the table rendering plugin
    ([commands.markdownRenderTables] and the [onBlur] closure it hands to the
    table constructor), together with the properties of the detection rules,
    of the span checks and of the registry handling.

    Line indices are natural numbers.  The source computes [i - 1] and
    [j - 1] only behind the guards [i === 0 || ...] and inside loops that
    start at [i >= 1] or at [i + 1], so truncated subtraction never differs
    from the source's arithmetic on the paths that are taken. *)

From Stdlib Require Import List String Ascii Arith Bool Lia ZArith DecimalString.
Import ListNotations.
Open Scope string_scope.
Open Scope list_scope.
Open Scope nat_scope.

(** ** Strings as the source uses them *)

Module JsString.

(** A string is read as its sequence of UTF-16 code units, each of them below
    256 (ASCII and Latin-1), so that [String.length] is the [length] of the
    source.  These are the characters [String.prototype.trim] strips in that
    range: tab, line feed, vertical tab, form feed, carriage return, space and
    the no-break space U+00A0. *)
Definition isWhiteSpace (c : ascii) : bool :=
  existsb (Ascii.eqb c)
    ["009"%char; "010"%char; "011"%char; "012"%char; "013"%char; " "%char;
     "160"%char].

Fixpoint trimStart (s : string) : string :=
  match s with
  | EmptyString => EmptyString
  | String c s' => if isWhiteSpace c then trimStart s' else s
  end.

Fixpoint trimEnd (s : string) : string :=
  match s with
  | EmptyString => EmptyString
  | String c s' =>
      match trimEnd s' with
      | EmptyString => if isWhiteSpace c then EmptyString else String c EmptyString
      | t => String c t
      end
  end.

Definition trim (s : string) : string := trimEnd (trimStart s).

(** [s.trim() === ''] *)
Definition blank (s : string) : bool := String.eqb (trim s) "".

Fixpoint onlyDashes (s : string) : bool :=
  match s with
  | EmptyString => true
  | String c s' => Ascii.eqb c "-"%char && onlyDashes s'
  end.

(** [/^-+$/.test(s)] *)
Definition dashRule (s : string) : bool :=
  negb (String.eqb s "") && onlyDashes s.

Definition newline : string := String "010"%char EmptyString.

(** [xs.join('\n')] *)
Definition join (xs : list string) : string := String.concat newline xs.

(** [s.split('\n')] *)
Fixpoint split (s : string) : list string :=
  match s with
  | EmptyString => [EmptyString]
  | String c s' =>
      if Ascii.eqb c "010"%char then EmptyString :: split s'
      else match split s' with
           | h :: t => String c h :: t
           | [] => [String c EmptyString]
           end
  end.

(** [s.substring(0, s.length - 1)] *)
Definition dropLast (s : string) : string :=
  String.substring 0 (String.length s - 1) s.

Definition ofNat (n : nat) : string := NilZero.string_of_uint (Nat.to_uint n).

End JsString.

(** ** The host editor

    The editor is an external collaborator.  Its state is the part of a
    CodeMirror document the plugin reads and writes: the lines, the mode at a
    position, the primary cursor, the viewport and the marked ranges. *)

Record Pos := mkPos { line : nat; ch : nat }.

Definition pos_ltb (p q : Pos) : bool :=
  (line p <? line q) || ((line p =? line q) && (ch p <? ch q)).

(** A marked range made by [markText]; [replacedWith] is the identity of the
    table object whose element stands in for the text. *)
Record TextMarker := mkMarker
  { mfrom : Pos; mto : Pos; replacedWith : nat; explicitlyCleared : bool }.

Record Editor := mkEditor
  { lines : list string;
    modeAt : Pos -> string;
    cursor : Pos;
    viewport : nat * nat;
    marks : list TextMarker }.

Module Host.

Definition getLine (ed : Editor) (n : nat) : option string := nth_error (lines ed) n.

Definition lineCount (ed : Editor) : nat := List.length (lines ed).

(** [doc.findMarks(from, to)]: the live marked ranges that meet the open
    interval between the two positions. *)
Definition overlaps (from to : Pos) (m : TextMarker) : bool :=
  negb (explicitlyCleared m) && pos_ltb (mfrom m) to && pos_ltb from (mto m).

Definition findMarks (ed : Editor) (from to : Pos) : list TextMarker :=
  filter (overlaps from to) (marks ed).

(** [doc.markText(from, to, {replacedWith})]: the new marker is the last of
    the store, and its index is the handle the caller keeps. *)
Definition markText (ed : Editor) (from to : Pos) (handle : nat) : Editor * nat :=
  (mkEditor (lines ed) (modeAt ed) (cursor ed) (viewport ed)
            (marks ed ++ [mkMarker from to handle false]),
   List.length (marks ed)).

Definition clearMarker (m : TextMarker) : TextMarker :=
  mkMarker (mfrom m) (mto m) (replacedWith m) true.

Fixpoint updateAt {A} (f : A -> A) (n : nat) (l : list A) : list A :=
  match l, n with
  | [], _ => []
  | x :: l', 0 => f x :: l'
  | x :: l', S n' => x :: updateAt f n' l'
  end.

(** [marker.clear()] *)
Definition clear (ed : Editor) (m : nat) : Editor :=
  mkEditor (lines ed) (modeAt ed) (cursor ed) (viewport ed)
           (updateAt clearMarker m (marks ed)).

Definition weld (pre : string) (text : list string) (suf : string) : list string :=
  match text with
  | [] => [(pre ++ suf)%string]
  | [t] => [(pre ++ t ++ suf)%string]
  | t :: rest => (pre ++ t)%string :: removelast rest ++ [(last rest "" ++ suf)%string]
  end.

(** [cm.replaceRange(text, from, to)]: the lines of the document after the
    replacement.  Only the text is modelled: the editor that comes back keeps
    the cursor and the marked ranges at their old positions, whereas the host
    moves what lies below an edit along with its text.  The statements below
    read, after a replacement, the lines and the marker the reaction clears
    itself, and nothing else of the editor. *)
Definition replaceRange (ed : Editor) (text : list string) (from to : Pos) : Editor :=
  let fromLine := nth (line from) (lines ed) "" in
  let toLine := nth (line to) (lines ed) "" in
  let pre := String.substring 0 (ch from) fromLine in
  let suf := String.substring (ch to) (String.length toLine - ch to) toLine in
  mkEditor (firstn (line from) (lines ed) ++ weld pre text suf
              ++ skipn (S (line to)) (lines ed))
           (modeAt ed) (cursor ed) (viewport ed) (marks ed).

End Host.

(** ** The plugin *)

Inductive dialect := simple | grid | pipe.

Definition dialect_eqb (a b : dialect) : bool :=
  match a, b with
  | simple, simple | grid, grid | pipe, pipe => true
  | _, _ => false
  end.

(** The result of [tableHeadingRE.exec]: which of the three capture groups
    hold a non-empty string. *)
Record Match := mkMatch { group1 : bool; group2 : bool; group3 : bool }.

(** [firstLine], [lastLine] and [potentialTableType] once all three are set. *)
Record Span := mkSpan { firstLine : nat; lastLine : nat; potentialTableType : dialect }.

(** How the statements of one loop body up to the span check end. *)
Inductive detection :=
| NoTable                 (* [continue] *)
| Found (s : Span)
| DetectThrows.           (* a property read on [undefined] *)

(** What [marker.find()] yields for a marker that is no longer in the
    document. *)
Inductive gone := GoneFalse | GoneUndefined.

(** CodeMirror, the host the plugin imports: [find()] returns [undefined]
    once the marker is no longer in the document. *)
Definition codeMirrorFind : gone := GoneUndefined.

Inductive findResult :=
| FindFalse
| FindUndefined
| FindRange (from to : Pos).

Inductive reason := CursorInside | MarkerPresent | NotMarkdown | SetextHeading.

Definition markdownZkn : string := "markdown-zkn".

(** What one statement sequence hands back: a value, or a thrown error. *)
Inductive completion (A : Type) :=
| Normal (a : A)
| Throw (e : string).
Arguments Normal {A} a.
Arguments Throw {A} e.

Section Plugin.

(** [tableHeadingRE.exec]: the pattern comes from
    [@common/regular-expressions] and holds no position between calls; all
    the scan reads from a match are its three groups. *)
Variable tableHeadingRE : string -> option Match.

(** The table object of the table editor, its constructor [fromMarkdown]
    ([inr msg] when it throws an error with that message) and its
    serialiser [getMarkdownTable]. *)
Variable Table : Type.
Variable fromMarkdown : string -> dialect -> Table + string.
Variable getMarkdownTable : Table -> string.

(** The host's answer to [find()] on a marker that left the document. *)
Variable whenGone : gone.

(** A table object: [oid] is the object's identity (what [indexOf]
    compares), [widget] its current contents. *)
Record Instance := mkInstance { oid : nat; widget : Table }.

(** The editor, the module-level array [tables], the lines written by
    [console.error], and the number of table objects made so far. *)
Record State := mkState
  { cm : Editor;
    tables : list Instance;
    console : list string;
    allocated : nat }.

Inductive outcome :=
| Skipped                                   (* [continue] before a span is fixed *)
| Rejected (s : Span) (r : reason)          (* [continue] after [i = lastLine] *)
| Failed (s : Span) (msg : string)          (* the [catch] branch *)
| Rendered (s : Span) (t : Instance) (m : nat)
| Threw.

(** *** Detection: lines 172 to 251 *)

(** [tableHeadingRE.exec(line)]; an [undefined] line is read as the string
    ["undefined"]. *)
Definition execLine (l : option string) : option Match :=
  tableHeadingRE (match l with Some s => s | None => "undefined" end).

(** The loop of the headless case over the lines from index [j] on. *)
Fixpoint headlessEnd (ls : list string) (j : nat) : option nat :=
  match ls with
  | [] => None
  | l :: ls' =>
      if JsString.blank l then None
      else match tableHeadingRE l with
           | Some m => if group1 m then Some j else headlessEnd ls' (S j)
           | None => headlessEnd ls' (S j)
           end
  end.

(** The loops that look for the first empty line over the lines from index
    [j] on; the caller takes [j - 1]. *)
Fixpoint firstBlank (ls : list string) (j : nat) : option nat :=
  match ls with
  | [] => None
  | l :: ls' => if JsString.blank l then Some j else firstBlank ls' (S j)
  end.

Definition blankFrom (ed : Editor) (start : nat) : option nat :=
  firstBlank (skipn start (lines ed)) start.

(** [i === 0 || cm.getLine(i - 1).trim() === ''] *)
Definition noLineAbove (ed : Editor) (i : nat) : completion bool :=
  if i =? 0 then Normal true
  else match Host.getLine ed (i - 1) with
       | Some l => Normal (JsString.blank l)
       | None => Throw "TypeError"
       end.

(** Line 249. *)
Definition spanCheck (first last : option nat) (ty : dialect) : detection :=
  match last, first with
  | Some l, Some f => if f =? l then NoTable else Found (mkSpan f l ty)
  | _, _ => NoTable
  end.

Definition detectSpan (ed : Editor) (i : nat) : detection :=
  match execLine (Host.getLine ed i) with
  | None => NoTable
  | Some m =>
      if group1 m then
        match Host.getLine ed (i + 1) with
        | None => NoTable
        | Some nextLine =>
            if JsString.blank nextLine then NoTable
            else match noLineAbove ed i with
                 | Throw _ => DetectThrows
                 | Normal true =>
                     spanCheck (Some i)
                               (headlessEnd (skipn (i + 1) (lines ed)) (i + 1)) simple
                 | Normal false =>
                     spanCheck (Some (i - 1))
                               (option_map (fun j => j - 1) (blankFrom ed i)) simple
                 end
        end
      else if group2 m then
        spanCheck (Some i) (option_map (fun j => j - 1) (blankFrom ed (i + 1))) grid
      else if group3 m then
        match noLineAbove ed i with
        | Throw _ => DetectThrows
        | Normal true => NoTable
        | Normal false =>
            spanCheck (Some (i - 1)) (option_map (fun j => j - 1) (blankFrom ed i)) pipe
        end
      else NoTable
  end.

(** Lines 160 to 251: the mode test at the start of the line, then the
    detection. *)
Definition candidate (ed : Editor) (i : nat) : detection :=
  if negb (String.eqb (modeAt ed (mkPos i 0)) markdownZkn) then NoTable
  else detectSpan ed i.

(** *** One turn of the loop *)

(** Lines 287 to 290; a line read out of range is [undefined]. *)
Definition grabTable (ed : Editor) (s : Span) : list (option string) :=
  map (Host.getLine ed) (seq (firstLine s) (S (lastLine s) - firstLine s)).

(** [Array.prototype.join] writes [undefined] as the empty string. *)
Definition joinTable (t : list (option string)) : string :=
  JsString.join (map (fun o => match o with Some l => l | None => "" end) t).

(** Line 303. *)
Definition setextGuard (s : Span) (markdownTable : list (option string)) : bool :=
  dialect_eqb (potentialTableType s) simple
  && (2 <? List.length markdownTable)
  && match nth_error markdownTable 1 with
     | Some (Some l) => JsString.dashRule l
     | _ => false
     end.

Definition errorLine (s : Span) (msg : string) : string :=
  ("Could not instantiate table between " ++ JsString.ofNat (firstLine s)
     ++ " and " ++ JsString.ofNat (lastLine s) ++ ": " ++ msg)%string.

(** The body of the [for] loop at index [i]: the state it leaves, the value
    of [i] when the body ends (before [i++]), and how it ended. *)
Definition iteration (st : State) (i : nat) : State * nat * outcome :=
  let ed := cm st in
  match candidate ed i with
  | NoTable => (st, i, Skipped)
  | DetectThrows => (st, i, Threw)
  | Found s =>
      let i := lastLine s in
      let cur := cursor ed in
      if (firstLine s <=? line cur) && (line cur <=? lastLine s)
      then (st, i, Rejected s CursorInside)
      else
        match Host.getLine ed (lastLine s) with
        | None => (st, i, Threw)
        | Some l =>
            let curFrom := mkPos (firstLine s) 0 in
            let curTo := mkPos (lastLine s) (String.length l) in
            if 0 <? List.length (Host.findMarks ed curFrom curTo)
            then (st, i, Rejected s MarkerPresent)
            else
              let beginningIsMd := String.eqb (modeAt ed curFrom) markdownZkn in
              let endingIsMd :=
                String.eqb (modeAt ed (mkPos (line curTo) 0)) markdownZkn in
              if negb beginningIsMd || negb endingIsMd
              then (st, i, Rejected s NotMarkdown)
              else
                let markdownTable := grabTable ed s in
                if setextGuard s markdownTable
                then (st, i, Rejected s SetextHeading)
                else
                  match fromMarkdown (joinTable markdownTable) (potentialTableType s) with
                  | inr msg =>
                      (mkState ed (tables st) (console st ++ [errorLine s msg])
                               (allocated st),
                       i, Failed s msg)
                  | inl tbl =>
                      let t := mkInstance (allocated st) tbl in
                      let '(ed', textMarker) := Host.markText ed curFrom curTo (oid t) in
                      (mkState ed' (tables st ++ [t]) (console st) (S (allocated st)),
                       i, Rendered s t textMarker)
                  end
        end
  end.

(** *** The [for] loop and the command *)

(** The loop from index [i] up to the bound [to]; the trace pairs each
    index at which the body ran with the way the body ended.  [None] when
    [fuel] turns do not reach the bound. *)
Fixpoint loop (fuel : nat) (to : nat) (st : State) (i : nat)
  : option (State * list (nat * outcome)) :=
  match fuel with
  | 0 => None
  | S fuel' =>
      if i <? to then
        let '(st', i', o) := iteration st i in
        match o with
        | Threw => Some (st', [(i, o)])
        | _ =>
            match loop fuel' to st' (S i') with
            | Some (final, tr) => Some (final, (i, o) :: tr)
            | None => None
            end
        end
      else Some (st, [])
  end.

Definition markdownRenderTables (st : State) : option (State * list (nat * outcome)) :=
  let '(from, to) := viewport (cm st) in
  loop (S (to - from)) to st from.

(** *** The write-back reaction *)

(** [textMarker.find()] *)
Definition find (ed : Editor) (m : nat) : findResult :=
  match nth_error (marks ed) m with
  | Some mk =>
      if explicitlyCleared mk
      then match whenGone with GoneFalse => FindFalse | GoneUndefined => FindUndefined end
      else FindRange (mfrom mk) (mto mk)
  | None => match whenGone with GoneFalse => FindFalse | GoneUndefined => FindUndefined end
  end.

(** [tables.indexOf(t)], counting from [k]. *)
Fixpoint indexOfFrom (l : list Instance) (t : Instance) (k : Z) : Z :=
  match l with
  | [] => (-1)%Z
  | x :: l' => if oid x =? oid t then k else indexOfFrom l' t (k + 1)%Z
  end.

Definition indexOf (l : list Instance) (t : Instance) : Z := indexOfFrom l t 0%Z.

(** [l.splice(start, 1)]: a negative [start] counts from the end. *)
Definition splice1 {A} (start : Z) (l : list A) : list A :=
  let len := Z.of_nat (List.length l) in
  let actual := if (start <? 0)%Z then Z.max (len + start) 0 else Z.min start len in
  firstn (Z.to_nat actual) l ++ skipn (S (Z.to_nat actual)) l.

(** The closure [onBlur]: [textMarker] is the variable of the loop turn
    that made the closure, [t] the table object the editor passes in. *)
Definition onBlur (textMarker : option nat) (t : Instance) (st : State)
  : completion State :=
  match textMarker with
  | None => Normal st
  | Some m =>
      match find (cm st) m with
      | FindFalse => Normal st
      | _ =>
          let found := indexOf (tables st) t in
          let md := getMarkdownTable (widget t) in
          let md := JsString.dropLast md in
          match find (cm st) m with
          | FindRange from to =>
              let ed1 := Host.replaceRange (cm st) (JsString.split md) from to in
              let ed2 := Host.clear ed1 m in
              let tables' :=
                if (found =? 0)%Z then tables st else splice1 found (tables st) in
              Normal (mkState ed2 tables' (console st) (allocated st))
          | _ => Throw "TypeError"
          end
      end
  end.

End Plugin.

Arguments Skipped {Table}.
Arguments Rejected {Table} s r.
Arguments Failed {Table} s msg.
Arguments Rendered {Table} s t m.
Arguments Threw {Table}.
Arguments mkInstance {Table} oid widget.
Arguments oid {Table} i.
Arguments widget {Table} i.
Arguments mkState {Table} cm tables console allocated.
Arguments cm {Table} s.
Arguments tables {Table} s.
Arguments console {Table} s.
Arguments allocated {Table} s.
Arguments indexOf {Table} l t.
Arguments indexOfFrom {Table} l t k.
Arguments iteration tableHeadingRE {Table} fromMarkdown st i.
Arguments loop tableHeadingRE {Table} fromMarkdown fuel to st i.
Arguments markdownRenderTables tableHeadingRE {Table} fromMarkdown st.
Arguments onBlur {Table} getMarkdownTable whenGone textMarker t st.

(** ** A concrete setting for the examples

    The text of the heading pattern and the table constructor are not part of
    the plugin.  The general statements below hold for every pattern and every
    constructor; the examples run the scan with the pattern and the
    constructor of this module. *)

Module Sample.

(** [^[cls]+$] *)
Definition within (cls s : string) : bool :=
  negb (String.eqb s "")
  && forallb (fun c => existsb (Ascii.eqb c) (list_ascii_of_string cls))
             (list_ascii_of_string s).

(** A heading pattern with three alternatives tried in order: a rule of
    dashes and blanks (simple table), a rule that also has [+] and [:] (grid
    table), a row that also has [|] (pipe table). *)
Definition headingRE (s : string) : option Match :=
  if within "- " s then Some (mkMatch true false false)
  else if within "- +:" s then Some (mkMatch false true false)
  else if within "- |:+" s then Some (mkMatch false false true)
  else None.

(** A constructor that keeps the rows of the text and throws when they are
    not all of one width. *)
Definition Rows : Type := list string.

Definition sameWidth (rows : list string) : bool :=
  match rows with
  | [] => true
  | r :: rest => forallb (fun x => String.length x =? String.length r) rest
  end.

Definition fromRows (text : string) (ty : dialect) : Rows + string :=
  let rows := JsString.split text in
  if sameWidth rows then inl rows else inr "Malformed Markdown table".

Definition toMarkdown (rows : Rows) : string :=
  (JsString.join rows ++ JsString.newline)%string.

Definition allMarkdown : Pos -> string := fun _ => markdownZkn.

(** An editor on the given lines, all prose, without marked ranges. *)
Definition editor (ls : list string) (cursorLine : nat) (vp : nat * nat) : Editor :=
  mkEditor ls allMarkdown (mkPos cursorLine 0) vp [].

Definition fresh (ed : Editor) : State Rows := mkState ed [] [] 0.

Definition run (st : State Rows) :=
  markdownRenderTables headingRE fromRows st.

Definition pipeDoc : list string := ["| A | B |"; "| - | - |"; "| 1 | 2 |"; ""].

Definition setextDoc : list string := ["Title"; "-----"; "next paragraph text"; ""; "x"].

Definition twoRules : list string := ["-----"; "-----"; ""; "x"].

Definition chainedRules : list string :=
  ["--- ---"; "a   b"; "--- ---"; "--- ---"; "c   d"; ""].

Definition longPipeDoc : list string :=
  ["| A | B |"; "| - | - |"; "| 1 | 2 |"; "| 3 | 4 |"; "| 5 | 6 |"; ""].

Definition headedSimpleDoc : list string :=
  ["Name  Size"; "----  ----"; "a     1"; "b     2"; ""].

Definition headlessSimpleDoc : list string :=
  ["----  ----"; "a     1"; "b     2"; "----  ----"; ""].

Definition brokenHeadlessDoc : list string :=
  ["----  ----"; "a     1"; ""; "----  ----"; ""].

Definition frontmatterDoc : list string :=
  ["---"; "title: x"; "---"; ""; "text"].

(** The mode of [frontmatterDoc]: the first three lines are YAML at their
    first character. *)
Definition frontmatterMode : Pos -> string :=
  fun p => if (1 <=? line p) && (line p <? 3) && (ch p =? 0) then "yaml" else markdownZkn.

Definition stateAfter (st : State Rows) : State Rows :=
  match run st with
  | Some (final, _) => final
  | None => st
  end.

Definition traceOf (st : State Rows) : list (nat * outcome Rows) :=
  match run st with
  | Some (_, tr) => tr
  | None => []
  end.

Definition pipeStart : State Rows := fresh (editor pipeDoc 3 (0, 4)).

Definition pipeTable : Instance Rows :=
  mkInstance 0 ["| A | B |"; "| - | - |"; "| 1 | 2 |"].

Definition pipeSpan : Span := mkSpan 0 2 pipe.

(** [pipeStart] with the cursor on the separator row. *)
Definition pipeEditing : State Rows := fresh (editor pipeDoc 1 (0, 4)).

(** The state after the pass over [pipeStart], its marked range cleared. *)
Definition staleState : State Rows :=
  let st := stateAfter pipeStart in
  mkState (Host.clear (cm st) 0) (tables st) (console st) (allocated st).

Definition setextStart : State Rows := fresh (editor setextDoc 4 (0, 5)).

Definition twoStart : State Rows := fresh (editor twoRules 3 (0, 4)).

Definition chainStart : State Rows := fresh (editor chainedRules 5 (0, 6)).

Definition frontmatterStart : State Rows :=
  fresh (mkEditor frontmatterDoc frontmatterMode (mkPos 4 0) (0, 5) []).

(** A long pipe table seen through a viewport of two lines. *)
Definition narrowStart : State Rows := fresh (editor longPipeDoc 5 (0, 2)).

Definition narrowTable : Instance Rows :=
  mkInstance 0 ["| A | B |"; "| - | - |"; "| 1 | 2 |"; "| 3 | 4 |"; "| 5 | 6 |"].

(** The state the first turn over [chainStart] leaves. *)
Definition chainFailed : State Rows :=
  fst (fst (iteration headingRE fromRows chainStart 0)).

Definition malformed : string := "Malformed Markdown table".

(** A separator row without a header row above it. *)
Definition bareSeparatorDoc : list string := ["| - | - |"; "| 1 | 2 |"; ""].

Definition plain (ls : list string) : Editor := editor ls 0 (0, List.length ls).

Definition gridDoc : list string :=
  ["+---+---+"; "| a | b |"; "+---+---+"; ""].

Definition bareRuleDoc : list string := ["+---+---+"; ""; "text"].

(** A pipe table that runs to the last line of the document. *)
Definition unterminatedDoc : list string := ["| A | B |"; "| - | - |"; "| 1 | 2 |"].

(** Two pipe tables, a blank line between them. *)
Definition twoTablesDoc : list string :=
  ["| A | B |"; "| - | - |"; ""; "| C | D |"; "| - | - |"; ""].

Definition twoTablesStart : State Rows := fresh (editor twoTablesDoc 5 (0, 6)).

Definition secondTable : Instance Rows := mkInstance 1 ["| C | D |"; "| - | - |"].

(** A table object that never went into the registry. *)
Definition strayTable : Instance Rows := mkInstance 7 ["| X |"; "| - |"].

(** A document with a blank line to put a table on. *)
Definition noteDoc : list string := ["Some text"; ""; ""; "More text"].

Definition noteEditor : Editor := editor noteDoc 1 (0, 4).

(** The marked range the pass over [pipeStart] makes. *)
Definition pipeMarker : TextMarker := mkMarker (mkPos 0 0) (mkPos 2 9) 0 false.

End Sample.

(** ** Vocabulary of the statements *)

Definition nonBlankAt (ed : Editor) (n : nat) : Prop :=
  exists l, Host.getLine ed n = Some l /\ JsString.blank l = false.

Definition blankAt (ed : Editor) (n : nat) : Prop :=
  exists l, Host.getLine ed n = Some l /\ JsString.blank l = true.

(** [k] is the first blank line at or after [start]. *)
Definition firstBlankAt (ed : Editor) (start k : nat) : Prop :=
  start <= k /\ blankAt ed k /\ forall n, start <= n < k -> nonBlankAt ed n.

(** Alternative 1 of the heading pattern matched: [m !== null && m[1]]. *)
Definition matches1 (re : string -> option Match) (l : string) : bool :=
  match re l with
  | Some m => group1 m
  | None => false
  end.

Definition alt1At (re : string -> option Match) (ed : Editor) (n : nat) : Prop :=
  exists l, Host.getLine ed n = Some l /\ matches1 re l = true.

(** The line index [n] belongs to the span. *)
Definition inside (s : Span) (n : nat) : Prop := firstLine s <= n <= lastLine s.

(** The number of lines of a span. *)
Definition spanLength (s : Span) : nat := S (lastLine s) - firstLine s.

(** The span of a loop turn that got past the cursor, marker and mode
    checks. *)
Definition validatedSpan {Table} (o : outcome Table) : option Span :=
  match o with
  | Rejected s SetextHeading => Some s
  | Failed s _ => Some s
  | Rendered s _ _ => Some s
  | _ => None
  end.

(** The span of a loop turn that fixed one. *)
Definition spanOf {Table} (o : outcome Table) : option Span :=
  match o with
  | Rejected s _ => Some s
  | Failed s _ => Some s
  | Rendered s _ _ => Some s
  | _ => None
  end.

Fixpoint spansOf {Table} (f : outcome Table -> option Span)
  (tr : list (nat * outcome Table)) : list Span :=
  match tr with
  | [] => []
  | (_, o) :: tr' =>
      match f o with
      | Some s => s :: spansOf f tr'
      | None => spansOf f tr'
      end
  end.

(** No live marked range meets the text of the span. *)
Definition unmarked (ed : Editor) (s : Span) : Prop :=
  exists l, Host.getLine ed (lastLine s) = Some l
            /\ Host.findMarks ed (mkPos (firstLine s) 0)
                               (mkPos (lastLine s) (String.length l)) = [].

Definition rendered {Table} (o : outcome Table) : Prop :=
  match o with
  | Rendered _ _ _ => True
  | _ => False
  end.

(** Two loop turns of one pass, the first before the second: their validated
    spans are in order, the later one starting no earlier than the last line
    of the earlier one, and strictly after it when the earlier one was bound. *)
Definition inOrder {Table} (o1 o2 : outcome Table) : Prop :=
  forall s1 s2, validatedSpan o1 = Some s1 -> validatedSpan o2 = Some s2 ->
    lastLine s1 <= firstLine s2 /\ (rendered o1 -> lastLine s1 < firstLine s2).

(** No line index belongs to both spans. *)
Definition disjoint (s1 s2 : Span) : Prop :=
  forall n, ~ (inside s1 n /\ inside s2 n).

Definition withViewport (ed : Editor) (vp : nat * nat) : Editor :=
  mkEditor (lines ed) (modeAt ed) (cursor ed) vp (marks ed).

Definition liveMarker (ed : Editor) (m : nat) : Prop :=
  exists mk, nth_error (marks ed) m = Some mk /\ explicitlyCleared mk = false.

Definition clearedMarker (ed : Editor) (m : nat) : Prop :=
  exists mk, nth_error (marks ed) m = Some mk /\ explicitlyCleared mk = true.

Definition registered {Table} (l : list (Instance Table)) (t : Instance Table) : Prop :=
  exists x, In x l /\ oid x = oid t.

(** ** The command that inserts a table *)

(** The literal of [commands.markdownInsertTable]. *)
Definition tableTemplate : string :=
  ("| | |" ++ JsString.newline ++ "| | |" ++ JsString.newline)%string.

(** Where the host leaves the cursor after it has put [text] in at [from]:
    behind the last character of the text. *)
Definition endOfInsert (from : Pos) (text : list string) : Pos :=
  match text with
  | [] => from
  | [t] => mkPos (line from) (ch from + String.length t)
  | _ => mkPos (line from + (List.length text - 1)) (String.length (last text ""))
  end.

(** [cm.replaceSelection(text)] for a primary selection that runs from
    [cursor ed] to [selTo]. *)
Definition replaceSelection (ed : Editor) (selTo : Pos) (text : string) : Editor :=
  let ed' := Host.replaceRange ed (JsString.split text) (cursor ed) selTo in
  mkEditor (lines ed') (modeAt ed') (endOfInsert (cursor ed) (JsString.split text))
           (viewport ed') (marks ed').

Definition markdownInsertTable (ed : Editor) (selTo : Pos) : Editor :=
  replaceSelection ed selTo tableTemplate.

(** ** The editor pane component *)

Module EditorPane.

(** What the component reads of an open document and of a leaf of the pane
    tree. *)
Record OpenDocument := mkDocument { path : string }.

Record LeafNodeJSON := mkLeaf
  { id : string;
    activeFile : option OpenDocument;
    openFiles : list OpenDocument }.

(** [this.$store.state] *)
Record StoreState := mkStore
  { lastLeafId : option string;
    distractionFreeMode : option string;
    paneData : list LeafNodeJSON }.

Section Component.

(** Numbers and the way a template literal writes them. *)
Variable Number : Type.
Variable numberToString : Number -> string.

Record Props := mkProps
  { leafId : string;
    windowId : string;
    availableWidth : Number;
    availableHeight : Number }.

Definition computedDistractionFree (props : Props) (store : StoreState) : bool :=
  match distractionFreeMode store with
  | Some x => String.eqb x (leafId props)
  | None => false
  end.

Definition computedElementStyles (props : Props) (store : StoreState) : string :=
  if computedDistractionFree props store then ""
  else ("width: " ++ numberToString (availableWidth props) ++ "%; height: "
          ++ numberToString (availableHeight props) ++ "%")%string.

Definition computedNode (props : Props) (store : StoreState) : option LeafNodeJSON :=
  List.find (fun leaf => String.eqb (id leaf) (leafId props)) (paneData store).

(** [this.node?.activeFile ?? null] *)
Definition computedActiveFile (props : Props) (store : StoreState) : option OpenDocument :=
  match computedNode props store with
  | Some n => activeFile n
  | None => None
  end.

(** [this.node?.openFiles ?? []] *)
Definition computedOpenFiles (props : Props) (store : StoreState) : list OpenDocument :=
  match computedNode props store with
  | Some n => openFiles n
  | None => []
  end.

Definition computedHasNoOpenFiles (props : Props) (store : StoreState) : bool :=
  List.length (computedOpenFiles props store) =? 0.

(** The children of the root element of the template. *)
Inductive child :=
| DocumentTabs (leaf window : string)
| MainEditor (key : string) (show : bool) (file : OpenDocument)
| EmptyPane.

(** [activeFile?.path === file.path] *)
Definition isActive (active : option OpenDocument) (file : OpenDocument) : bool :=
  match active with
  | Some a => String.eqb (path a) (path file)
  | None => false
  end.

Definition renderChildren (props : Props) (store : StoreState) : list child :=
  DocumentTabs (leafId props) (windowId props)
  :: map (fun file => MainEditor (path file)
                        (isActive (computedActiveFile props store) file) file)
         (computedOpenFiles props store)
  ++ (if computedHasNoOpenFiles props store then [EmptyPane] else []).

Definition isEditor (c : child) : bool :=
  match c with
  | MainEditor _ _ _ => true
  | _ => false
  end.

Definition isShownEditor (c : child) : bool :=
  match c with
  | MainEditor _ show _ => show
  | _ => false
  end.

End Component.

End EditorPane.

Module SamplePane.

(** A pane tree with two leaves, and a pane for the second one. *)
Definition fileA : EditorPane.OpenDocument := EditorPane.mkDocument "/notes/a.md".

Definition fileB : EditorPane.OpenDocument := EditorPane.mkDocument "/notes/b.md".

Definition leftLeaf : EditorPane.LeafNodeJSON := EditorPane.mkLeaf "left" None [].

Definition rightLeaf : EditorPane.LeafNodeJSON :=
  EditorPane.mkLeaf "right" (Some fileB) [fileA; fileB].

Definition paneStore : EditorPane.StoreState :=
  EditorPane.mkStore (Some "right") None [leftLeaf; rightLeaf].

Definition rightPane : EditorPane.Props nat := EditorPane.mkProps nat "right" "main" 50 100.

Definition lostPane : EditorPane.Props nat := EditorPane.mkProps nat "gone" "main" 50 100.

End SamplePane.

(** ** More vocabulary *)

(** Two editors show the same document to the scan: text, modes, cursor and
    viewport. *)
Definition sameDoc (a b : Editor) : Prop :=
  lines a = lines b /\ modeAt a = modeAt b /\ cursor a = cursor b
  /\ viewport a = viewport b.

(** The table objects a pass made, in the order it made them. *)
Fixpoint instancesOf {Table} (tr : list (nat * outcome Table)) : list (Instance Table) :=
  match tr with
  | [] => []
  | (_, Rendered _ t _) :: tr' => t :: instancesOf tr'
  | _ :: tr' => instancesOf tr'
  end.

(** The marked ranges a pass made. *)
Fixpoint markersOf {Table} (ls : list string) (tr : list (nat * outcome Table))
  : list TextMarker :=
  match tr with
  | [] => []
  | (_, Rendered s t _) :: tr' =>
      mkMarker (mkPos (firstLine s) 0)
               (mkPos (lastLine s) (String.length (nth (lastLine s) ls "")))
               (oid t) false
      :: markersOf ls tr'
  | _ :: tr' => markersOf ls tr'
  end.

(** The lines a pass wrote with [console.error]. *)
Fixpoint errorsOf {Table} (tr : list (nat * outcome Table)) : list string :=
  match tr with
  | [] => []
  | (_, Failed s msg) :: tr' => errorLine s msg :: errorsOf tr'
  | _ :: tr' => errorsOf tr'
  end.

(** The text of a span, as the lines of the document. *)
Definition spanLines (ed : Editor) (s : Span) : list string :=
  firstn (spanLength s) (skipn (firstLine s) (lines ed)).

Fixpoint hasNewline (s : string) : bool :=
  match s with
  | EmptyString => false
  | String c s' => Ascii.eqb c "010"%char || hasNewline s'
  end.

(** The marked range [m] covers the whole lines [first] to [last]. *)
Definition coversLines (ed : Editor) (m first last : nat) : Prop :=
  exists mk l,
    nth_error (marks ed) m = Some mk /\ explicitlyCleared mk = false
    /\ Host.getLine ed last = Some l
    /\ mfrom mk = mkPos first 0 /\ mto mk = mkPos last (String.length l).

(** ** The forward scans *)

Section Scans.

Variable tableHeadingRE : string -> option Match.

Lemma firstBlank_sound ls : forall j k,
  firstBlank ls j = Some k ->
  j <= k /\ k < j + List.length ls
  /\ (exists l, nth_error ls (k - j) = Some l /\ JsString.blank l = true)
  /\ (forall n, n < k - j -> exists l, nth_error ls n = Some l /\ JsString.blank l = false).
Proof.
  induction ls as [|l ls IH]; intros j k H; simpl in H.
  - discriminate.
  - destruct (JsString.blank l) eqn:B.
    + injection H as <-. rewrite Nat.sub_diag. simpl.
      repeat split; try lia.
      exists l; auto.
    + apply IH in H. destruct H as (H1 & H2 & (l' & H3 & H4) & H5).
      assert (E : k - j = S (k - S j)) by lia.
      repeat split; simpl; try lia.
      * exists l'. rewrite E. simpl. auto.
      * intros n Hn. destruct n as [|n]; simpl.
        -- exists l; auto.
        -- apply H5. lia.
Qed.

Lemma firstBlank_complete ls : forall j n l,
  nth_error ls n = Some l -> JsString.blank l = true ->
  (forall p, p < n -> exists l', nth_error ls p = Some l' /\ JsString.blank l' = false) ->
  firstBlank ls j = Some (j + n).
Proof.
  induction ls as [|x ls IH]; intros j n l Hn Hb Hbefore.
  - destruct n; discriminate.
  - destruct n as [|n]; simpl in *.
    + injection Hn as ->. rewrite Hb. f_equal. lia.
    + destruct (Hbefore 0) as (l' & E & B); [lia|].
      simpl in E. injection E as ->. rewrite B.
      rewrite (IH (S j) n l Hn Hb).
      * f_equal. lia.
      * intros p Hp. apply (Hbefore (S p)). lia.
Qed.

Lemma blankFrom_sound ed start k :
  blankFrom ed start = Some k -> firstBlankAt ed start k /\ k < Host.lineCount ed.
Proof.
  unfold blankFrom. intros H.
  apply firstBlank_sound in H. destruct H as (H1 & H2 & (l & H3 & H4) & H5).
  rewrite nth_error_skipn in H3.
  replace (start + (k - start)) with k in H3 by lia.
  split.
  - split; [exact H1|]. split.
    + exists l. auto.
    + intros n Hn. destruct (H5 (n - start)) as (l' & E & B); [lia|].
      rewrite nth_error_skipn in E.
      replace (start + (n - start)) with n in E by lia.
      exists l'. auto.
  - unfold Host.lineCount. apply nth_error_Some. unfold Host.getLine in *. congruence.
Qed.

Lemma blankFrom_complete ed start k :
  firstBlankAt ed start k -> blankFrom ed start = Some k.
Proof.
  intros (H1 & (l & H2 & H3) & H4). unfold blankFrom.
  replace (Some k) with (Some (start + (k - start))) by (f_equal; lia).
  apply firstBlank_complete with (l := l).
  - rewrite nth_error_skipn. replace (start + (k - start)) with k by lia. exact H2.
  - exact H3.
  - intros p Hp. destruct (H4 (start + p)) as (l' & E & B); [lia|].
    exists l'. rewrite nth_error_skipn. auto.
Qed.

Lemma headlessEnd_sound ls : forall j k,
  headlessEnd tableHeadingRE ls j = Some k ->
  j <= k /\ k < j + List.length ls
  /\ (exists l, nth_error ls (k - j) = Some l /\ JsString.blank l = false
                /\ matches1 tableHeadingRE l = true).
Proof.
  induction ls as [|l ls IH]; intros j k H; simpl in H.
  - discriminate.
  - destruct (JsString.blank l) eqn:B; [discriminate|].
    assert (Step : headlessEnd tableHeadingRE ls (S j) = Some k ->
                   j <= k /\ k < j + List.length (l :: ls)
                   /\ (exists l0, nth_error (l :: ls) (k - j) = Some l0
                                  /\ JsString.blank l0 = false
                                  /\ matches1 tableHeadingRE l0 = true)).
    { intros H'. apply IH in H'. destruct H' as (H1 & H2 & l' & H3 & H4 & H5).
      assert (E : k - j = S (k - S j)) by lia.
      repeat split; simpl; try lia.
      exists l'. rewrite E. simpl. auto. }
    destruct (tableHeadingRE l) as [m|] eqn:M; [|auto].
    destruct (group1 m) eqn:G; [|auto].
    injection H as <-. rewrite Nat.sub_diag. simpl.
    repeat split; try lia.
    exists l. unfold matches1. rewrite M. auto.
Qed.

Lemma headlessEnd_complete ls : forall j n l,
  nth_error ls n = Some l -> JsString.blank l = false ->
  matches1 tableHeadingRE l = true ->
  (forall p, p < n -> exists l', nth_error ls p = Some l' /\ JsString.blank l' = false
                                 /\ matches1 tableHeadingRE l' = false) ->
  headlessEnd tableHeadingRE ls j = Some (j + n).
Proof.
  induction ls as [|x ls IH]; intros j n l Hn Hb Hm Hbefore.
  - destruct n; discriminate.
  - destruct n as [|n]; simpl in *.
    + injection Hn as ->. rewrite Hb. unfold matches1 in Hm.
      destruct (tableHeadingRE l) as [m|]; [|discriminate].
      rewrite Hm. f_equal. lia.
    + destruct (Hbefore 0) as (l' & E & B & M); [lia|].
      simpl in E. injection E as ->. rewrite B.
      assert (R : headlessEnd tableHeadingRE ls (S j) = Some (j + S n)).
      { rewrite (IH (S j) n l Hn Hb Hm).
        - f_equal. lia.
        - intros p Hp. apply (Hbefore (S p)). lia. }
      unfold matches1 in M. destruct (tableHeadingRE l') as [m|]; [|exact R].
      rewrite M. exact R.
Qed.

Lemma headlessEnd_aborts ls : forall j n l,
  nth_error ls n = Some l -> JsString.blank l = true ->
  (forall p l', p < n -> nth_error ls p = Some l' -> matches1 tableHeadingRE l' = false) ->
  headlessEnd tableHeadingRE ls j = None.
Proof.
  induction ls as [|x ls IH]; intros j n l Hn Hb Hbefore.
  - reflexivity.
  - simpl. destruct (JsString.blank x) eqn:B; [reflexivity|].
    destruct n as [|n]; simpl in Hn.
    + injection Hn as ->. congruence.
    + assert (R : headlessEnd tableHeadingRE ls (S j) = None).
      { apply (IH (S j) n l Hn Hb). intros p l' Hp E. apply (Hbefore (S p) l'); [lia|exact E]. }
      assert (M : matches1 tableHeadingRE x = false) by (apply (Hbefore 0 x); [lia|reflexivity]).
      unfold matches1 in M. destruct (tableHeadingRE x) as [m|]; [|exact R].
      rewrite M. exact R.
Qed.

End Scans.

(** ** The detection rules *)

Section Detection.

Variable tableHeadingRE : string -> option Match.

Lemma spanCheck_found first last ty s :
  spanCheck first last ty = Found s ->
  exists f l, first = Some f /\ last = Some l /\ f <> l /\ s = mkSpan f l ty.
Proof.
  unfold spanCheck. destruct last as [l|]; [|discriminate].
  destruct first as [f|]; [|discriminate].
  destruct (f =? l) eqn:E; [discriminate|].
  intros H. injection H as <-. apply Nat.eqb_neq in E.
  exists f, l. auto.
Qed.

Lemma noLineAbove_false ed i :
  noLineAbove ed i = Normal false -> 0 < i /\ nonBlankAt ed (i - 1).
Proof.
  unfold noLineAbove. destruct (i =? 0) eqn:E; [discriminate|].
  apply Nat.eqb_neq in E.
  destruct (Host.getLine ed (i - 1)) as [l|] eqn:G; [|discriminate].
  intros H. injection H as H. split; [lia|]. exists l. auto.
Qed.

Lemma noLineAbove_headed ed i :
  0 < i -> nonBlankAt ed (i - 1) -> noLineAbove ed i = Normal false.
Proof.
  intros Hi (l & G & B). unfold noLineAbove.
  destruct (i =? 0) eqn:E; [apply Nat.eqb_eq in E; lia|].
  rewrite G, B. reflexivity.
Qed.

Lemma noLineAbove_headless ed i :
  i = 0 \/ blankAt ed (i - 1) -> noLineAbove ed i = Normal true.
Proof.
  intros H. unfold noLineAbove.
  destruct (i =? 0) eqn:E; [reflexivity|].
  destruct H as [->|(l & G & B)]; [discriminate|].
  rewrite G, B. reflexivity.
Qed.

Lemma noLineAbove_defined ed i :
  i < Host.lineCount ed -> exists b, noLineAbove ed i = Normal b.
Proof.
  intros Hi. unfold noLineAbove.
  destruct (i =? 0); [eauto|].
  destruct (Host.getLine ed (i - 1)) as [l|] eqn:G; [eauto|].
  apply nth_error_None in G. unfold Host.lineCount in Hi. lia.
Qed.

(** The span below a blank-terminated rule: both ends, read off the first
    blank line. *)
Lemma blank_terminated_span ed i first ty s :
  spanCheck (Some first) (option_map (fun j => j - 1) (blankFrom ed (S first))) ty = Found s ->
  first <= i -> i <= S first ->
  firstLine s = first /\ first < lastLine s /\ lastLine s < Host.lineCount ed.
Proof.
  intros H Hlo Hhi. apply spanCheck_found in H.
  destruct H as (f & l & Ef & El & Hne & ->). injection Ef as <-. simpl.
  destruct (blankFrom ed (S first)) as [j|] eqn:Bj; [|discriminate].
  simpl in El. injection El as <-.
  apply blankFrom_sound in Bj. destruct Bj as ((Hj & _) & Hlen). lia.
Qed.

Lemma headed_span ed i ty s :
  0 < i ->
  spanCheck (Some (i - 1)) (option_map (fun j => j - 1) (blankFrom ed i)) ty = Found s ->
  firstLine s = i - 1 /\ i <= lastLine s /\ lastLine s < Host.lineCount ed.
Proof.
  intros Hi H. apply spanCheck_found in H.
  destruct H as (f & l & Ef & El & Hne & ->). injection Ef as <-. simpl.
  destruct (blankFrom ed i) as [j|] eqn:Bj; [|discriminate].
  simpl in El. injection El as <-.
  apply blankFrom_sound in Bj. destruct Bj as ((Hj & _) & Hlen). lia.
Qed.

(** Every span the detection fixes has at least two lines, starts at the
    heading line or the line above it, reaches the heading line, and lies
    within the document. *)
Lemma detectSpan_bounds ed i s :
  detectSpan tableHeadingRE ed i = Found s ->
  firstLine s < lastLine s /\ firstLine s <= i /\ i <= S (firstLine s)
  /\ i <= lastLine s /\ lastLine s < Host.lineCount ed.
Proof.
  unfold detectSpan.
  destruct (execLine tableHeadingRE (Host.getLine ed i)) as [m|]; [|discriminate].
  destruct (group1 m).
  - destruct (Host.getLine ed (i + 1)) as [nextLine|]; [|discriminate].
    destruct (JsString.blank nextLine); [discriminate|].
    destruct (noLineAbove ed i) as [[|]|] eqn:A; [| |discriminate].
    + intros H. apply spanCheck_found in H.
      destruct H as (f & l & Ef & El & Hne & ->). injection Ef as <-. simpl.
      apply headlessEnd_sound in El. destruct El as (H1 & H2 & _).
      rewrite length_skipn in H2. unfold Host.lineCount. lia.
    + apply noLineAbove_false in A. destruct A as (Hi & _).
      intros H. apply headed_span in H; [|exact Hi]. lia.
  - destruct (group2 m).
    + intros H. replace (i + 1) with (S i) in H by lia.
      apply (blank_terminated_span ed i) in H; lia.
    + destruct (group3 m); [|discriminate].
      destruct (noLineAbove ed i) as [[|]|] eqn:A; try discriminate.
      apply noLineAbove_false in A. destruct A as (Hi & _).
      intros H. apply headed_span in H; [|exact Hi]. lia.
Qed.

Lemma candidate_found ed i s :
  candidate tableHeadingRE ed i = Found s ->
  modeAt ed (mkPos i 0) = markdownZkn /\ detectSpan tableHeadingRE ed i = Found s.
Proof.
  unfold candidate.
  destruct (String.eqb (modeAt ed (mkPos i 0)) markdownZkn) eqn:E; simpl; [|discriminate].
  apply String.eqb_eq in E. auto.
Qed.

Lemma detectSpan_total ed i :
  i < Host.lineCount ed -> detectSpan tableHeadingRE ed i <> DetectThrows.
Proof.
  intros Hi. unfold detectSpan.
  destruct (noLineAbove_defined ed i Hi) as (b & A).
  destruct (execLine tableHeadingRE (Host.getLine ed i)) as [m|]; [|discriminate].
  assert (SC : forall f l ty, spanCheck f l ty <> DetectThrows).
  { intros f l ty. unfold spanCheck. destruct l, f; try discriminate.
    destruct (_ =? _); discriminate. }
  destruct (group1 m).
  - destruct (Host.getLine ed (i + 1)) as [nextLine|]; [|discriminate].
    destruct (JsString.blank nextLine); [discriminate|].
    rewrite A. destruct b; apply SC.
  - destruct (group2 m); [apply SC|].
    destruct (group3 m); [|discriminate].
    rewrite A. destruct b; [discriminate|apply SC].
Qed.

(** A rule of dashes with nothing, or a blank line, below it is left alone:
    this is how a Setext heading that is followed by a blank line is kept. *)
Lemma rule_without_body ed i l m :
  Host.getLine ed i = Some l ->
  tableHeadingRE l = Some m -> group1 m = true ->
  Host.getLine ed (i + 1) = None \/ blankAt ed (i + 1) ->
  detectSpan tableHeadingRE ed i = NoTable.
Proof.
  intros G M G1 H. unfold detectSpan, execLine. rewrite G, M, G1.
  destruct H as [->|(n & -> & ->)]; reflexivity.
Qed.

(** C7 -- a separator row at line [i] that matches alternative 3 only, is not
    blank itself, has a non-blank header row above and a first blank line [k]
    at or after it, gives the pipe span from [i - 1] to [k - 1]; when [i] is
    the first line or the line above is blank, nothing is detected at [i]. *)
Theorem pipe_rule_span ed i l m :
  Host.getLine ed i = Some l ->
  tableHeadingRE l = Some m ->
  group1 m = false -> group2 m = false -> group3 m = true ->
  (forall k, 0 < i -> nonBlankAt ed (i - 1) -> JsString.blank l = false ->
             firstBlankAt ed i k ->
             detectSpan tableHeadingRE ed i = Found (mkSpan (i - 1) (k - 1) pipe))
  /\ (i = 0 \/ blankAt ed (i - 1) -> detectSpan tableHeadingRE ed i = NoTable).
Proof.
  intros G M G1 G2 G3.
  assert (D : detectSpan tableHeadingRE ed i =
              match noLineAbove ed i with
              | Throw _ => DetectThrows
              | Normal true => NoTable
              | Normal false =>
                  spanCheck (Some (i - 1))
                            (option_map (fun j => j - 1) (blankFrom ed i)) pipe
              end).
  { unfold detectSpan, execLine. rewrite G, M, G1, G2, G3. reflexivity. }
  split.
  - intros k Hi Habove Hl Hk. rewrite D, (noLineAbove_headed ed i Hi Habove).
    rewrite (blankFrom_complete ed i k Hk). simpl.
    assert (Hik : i <> k).
    { intros <-. destruct Hk as (_ & (l' & G' & B') & _). congruence. }
    destruct Hk as (Hle & _).
    destruct (i - 1 =? k - 1) eqn:E; [apply Nat.eqb_eq in E; lia|reflexivity].
  - intros H. rewrite D, (noLineAbove_headless ed i H). reflexivity.
Qed.

(** C8 -- alternative 1 matched at line [i] and the next line exists and is
    not blank.  Headless (first line, or blank line above): the span runs
    from [i] to the first later line [j] that matches alternative 1, all lines
    in between being non-blank, and nothing is detected when a blank line
    comes before any such line.  Headed: the span runs from [i - 1] to the
    line before the first blank line [k] at or after [i]. *)
Theorem simple_rule_span ed i l m next :
  Host.getLine ed i = Some l ->
  tableHeadingRE l = Some m ->
  group1 m = true ->
  Host.getLine ed (i + 1) = Some next ->
  JsString.blank next = false ->
  (i = 0 \/ blankAt ed (i - 1) ->
     (forall j, i < j ->
        (forall n, i < n < j -> nonBlankAt ed n /\ ~ alt1At tableHeadingRE ed n) ->
        nonBlankAt ed j -> alt1At tableHeadingRE ed j ->
        detectSpan tableHeadingRE ed i = Found (mkSpan i j simple))
     /\ (forall b, i < b -> blankAt ed b ->
           (forall n, i < n < b -> ~ alt1At tableHeadingRE ed n) ->
           detectSpan tableHeadingRE ed i = NoTable))
  /\ (0 < i -> nonBlankAt ed (i - 1) ->
      forall k, firstBlankAt ed i k -> i < k ->
                detectSpan tableHeadingRE ed i = Found (mkSpan (i - 1) (k - 1) simple)).
Proof.
  intros G M G1 Gn Bn.
  assert (D : detectSpan tableHeadingRE ed i =
              match noLineAbove ed i with
              | Throw _ => DetectThrows
              | Normal true =>
                  spanCheck (Some i)
                    (headlessEnd tableHeadingRE (skipn (i + 1) (lines ed)) (i + 1)) simple
              | Normal false =>
                  spanCheck (Some (i - 1))
                            (option_map (fun j => j - 1) (blankFrom ed i)) simple
              end).
  { unfold detectSpan, execLine. rewrite G, M, G1, Gn, Bn. reflexivity. }
  split.
  - intros Hless. rewrite D, (noLineAbove_headless ed i Hless). split.
    + intros j Hij Hmid (lj & Gj & Bj) (lj' & Gj' & Mj).
      assert (lj' = lj) by congruence. subst lj'.
      rewrite (headlessEnd_complete tableHeadingRE _ (i + 1) (j - (i + 1)) lj).
      * replace (i + 1 + (j - (i + 1))) with j by lia. simpl.
        destruct (i =? j) eqn:E; [apply Nat.eqb_eq in E; lia|reflexivity].
      * rewrite nth_error_skipn. replace (i + 1 + (j - (i + 1))) with j by lia. exact Gj.
      * exact Bj.
      * exact Mj.
      * intros p Hp. destruct (Hmid (i + 1 + p)) as ((l' & G' & B') & Hno); [lia|].
        exists l'. rewrite nth_error_skipn. repeat split; auto.
        destruct (matches1 tableHeadingRE l') eqn:M'; [|reflexivity].
        exfalso. apply Hno. exists l'. auto.
    + intros b Hib (lb & Gb & Bb) Hmid.
      rewrite (headlessEnd_aborts tableHeadingRE _ (i + 1) (b - (i + 1)) lb).
      * reflexivity.
      * rewrite nth_error_skipn. replace (i + 1 + (b - (i + 1))) with b by lia. exact Gb.
      * exact Bb.
      * intros p l' Hp E. rewrite nth_error_skipn in E.
        destruct (matches1 tableHeadingRE l') eqn:M'; [|reflexivity].
        exfalso. apply (Hmid (i + 1 + p)); [lia|]. exists l'. auto.
  - intros Hi Habove k Hk Hik. rewrite D, (noLineAbove_headed ed i Hi Habove).
    rewrite (blankFrom_complete ed i k Hk). simpl.
    destruct (i - 1 =? k - 1) eqn:E; [apply Nat.eqb_eq in E; lia|reflexivity].
Qed.

End Detection.

(** ** One turn of the loop *)

Section Turn.

Variable tableHeadingRE : string -> option Match.
Variable Table : Type.
Variable fromMarkdown : string -> dialect -> Table + string.

Lemma candidate_line ed i s :
  candidate tableHeadingRE ed i = Found s ->
  exists l, Host.getLine ed (lastLine s) = Some l.
Proof.
  intros H. apply candidate_found in H. destruct H as (_ & H).
  apply detectSpan_bounds in H. destruct H as (_ & _ & _ & _ & H).
  unfold Host.lineCount in H. unfold Host.getLine.
  destruct (nth_error (lines ed) (lastLine s)) as [l|] eqn:E; [eauto|].
  apply nth_error_None in E. lia.
Qed.

(** What a turn does, read off the way it ended. *)
Lemma iteration_spec st i st' i' o :
  iteration tableHeadingRE fromMarkdown st i = (st', i', o) ->
  match o with
  | Skipped => st' = st /\ i' = i
  | Threw => st' = st /\ candidate tableHeadingRE (cm st) i = DetectThrows
  | Rejected s r =>
      st' = st /\ i' = lastLine s /\ candidate tableHeadingRE (cm st) i = Found s
      /\ (r = SetextHeading -> unmarked (cm st) s)
  | Failed s msg =>
      st' = mkState (cm st) (tables st) (console st ++ [errorLine s msg]) (allocated st)
      /\ i' = lastLine s /\ candidate tableHeadingRE (cm st) i = Found s
      /\ unmarked (cm st) s
  | Rendered s t m =>
      exists l,
        Host.getLine (cm st) (lastLine s) = Some l
        /\ t = mkInstance (allocated st) (widget t)
        /\ m = List.length (marks (cm st))
        /\ st' = mkState
                   (fst (Host.markText (cm st) (mkPos (firstLine s) 0)
                           (mkPos (lastLine s) (String.length l)) (oid t)))
                   (tables st ++ [t]) (console st) (S (allocated st))
        /\ i' = lastLine s /\ candidate tableHeadingRE (cm st) i = Found s
        /\ unmarked (cm st) s
  end.
Proof.
  unfold iteration.
  destruct (candidate tableHeadingRE (cm st) i) as [|s|] eqn:C.
  - intros H. injection H as <- <- <-. auto.
  - destruct (candidate_line _ _ _ C) as (l & G). rewrite G.
    destruct ((firstLine s <=? line (cursor (cm st)))
              && (line (cursor (cm st)) <=? lastLine s)).
    { intros H. injection H as <- <- <-. repeat split; auto; discriminate. }
    destruct (Host.findMarks (cm st) (mkPos (firstLine s) 0)
                (mkPos (lastLine s) (String.length l))) as [|mk rest] eqn:F; simpl.
    2:{ intros H. injection H as <- <- <-. repeat split; auto; discriminate. }
    assert (U : unmarked (cm st) s) by (exists l; auto).
    destruct (negb (String.eqb (modeAt (cm st) (mkPos (firstLine s) 0)) markdownZkn)
              || negb (String.eqb (modeAt (cm st) (mkPos (lastLine s) 0)) markdownZkn)).
    { intros H. injection H as <- <- <-. repeat split; auto; discriminate. }
    destruct (setextGuard s (grabTable (cm st) s)).
    { intros H. injection H as <- <- <-. repeat split; auto. }
    destruct (fromMarkdown (joinTable (grabTable (cm st) s)) (potentialTableType s))
      as [tbl|msg].
    + intros H. injection H as <- <- <-. exists l. simpl. repeat split; auto.
    + intros H. injection H as <- <- <-. repeat split; auto.
  - intros H. injection H as <- <- <-. auto.
Qed.

(** C5 -- a candidate span that holds the line of the primary cursor is
    rejected by the cursor check: the turn leaves the state as it was, so
    nothing is constructed, bound or registered for it. *)
Theorem cursor_inside_rejected st i s :
  candidate tableHeadingRE (cm st) i = Found s ->
  inside s (line (cursor (cm st))) ->
  iteration tableHeadingRE fromMarkdown st i = (st, lastLine s, Rejected s CursorInside).
Proof.
  intros C (Hlo & Hhi). unfold iteration. rewrite C.
  apply Nat.leb_le in Hlo. apply Nat.leb_le in Hhi.
  rewrite Hlo, Hhi. reflexivity.
Qed.

(** C6 -- a candidate span whose first line or whose last line is not in
    Markdown mode at its first character is rejected: the turn ends in a
    [continue] with the state as it was. *)
Theorem mode_mismatch_rejected st i s :
  candidate tableHeadingRE (cm st) i = Found s ->
  modeAt (cm st) (mkPos (firstLine s) 0) <> markdownZkn
  \/ modeAt (cm st) (mkPos (lastLine s) 0) <> markdownZkn ->
  exists r, iteration tableHeadingRE fromMarkdown st i = (st, lastLine s, Rejected s r)
            /\ r <> SetextHeading.
Proof.
  intros C Hmode. unfold iteration. rewrite C.
  destruct (candidate_line _ _ _ C) as (l & G). rewrite G.
  destruct ((firstLine s <=? line (cursor (cm st)))
            && (line (cursor (cm st)) <=? lastLine s)).
  { exists CursorInside. split; [reflexivity|discriminate]. }
  destruct (0 <? List.length (Host.findMarks (cm st) (mkPos (firstLine s) 0)
                                (mkPos (lastLine s) (String.length l)))).
  { exists MarkerPresent. split; [reflexivity|discriminate]. }
  simpl.
  assert (E : negb (String.eqb (modeAt (cm st) (mkPos (firstLine s) 0)) markdownZkn)
              || negb (String.eqb (modeAt (cm st) (mkPos (lastLine s) 0)) markdownZkn)
              = true).
  { apply orb_true_iff.
    destruct Hmode as [H|H]; [left|right]; apply negb_true_iff;
      apply String.eqb_neq; exact H. }
  rewrite E. exists NotMarkdown. split; [reflexivity|discriminate].
Qed.

Lemma grabTable_length ed s : List.length (grabTable ed s) = spanLength s.
Proof. unfold grabTable, spanLength. rewrite length_map, length_seq. reflexivity. Qed.

Lemma grabTable_second ed s :
  2 <= spanLength s ->
  nth_error (grabTable ed s) 1 = Some (Host.getLine ed (firstLine s + 1)).
Proof.
  intros H. unfold grabTable, spanLength in *.
  rewrite nth_error_map, nth_error_seq.
  destruct (1 <? S (lastLine s) - firstLine s) eqn:E.
  - reflexivity.
  - apply Nat.ltb_ge in E. lia.
Qed.

(** C1, as the code has it -- a candidate span of the simple dialect with
    more than two lines whose second line is made of dashes only is never
    handed to the constructor: the turn ends in a [continue] with the state
    as it was. *)
Theorem setext_guard_rejects st i s l :
  candidate tableHeadingRE (cm st) i = Found s ->
  potentialTableType s = simple ->
  2 < spanLength s ->
  Host.getLine (cm st) (firstLine s + 1) = Some l ->
  JsString.dashRule l = true ->
  exists r, iteration tableHeadingRE fromMarkdown st i = (st, lastLine s, Rejected s r).
Proof.
  intros C Ty Len G2 Dash. unfold iteration. rewrite C.
  destruct (candidate_line _ _ _ C) as (ll & G). rewrite G.
  destruct ((firstLine s <=? line (cursor (cm st)))
            && (line (cursor (cm st)) <=? lastLine s)); [eauto|].
  destruct (0 <? List.length (Host.findMarks (cm st) (mkPos (firstLine s) 0)
                                (mkPos (lastLine s) (String.length ll)))); [eauto|].
  simpl.
  destruct (negb (String.eqb (modeAt (cm st) (mkPos (firstLine s) 0)) markdownZkn)
            || negb (String.eqb (modeAt (cm st) (mkPos (lastLine s) 0)) markdownZkn));
    [eauto|].
  assert (E : setextGuard s (grabTable (cm st) s) = true).
  { unfold setextGuard. rewrite Ty, grabTable_length, grabTable_second, G2, Dash by lia.
    simpl. apply Nat.ltb_lt in Len. rewrite Len. reflexivity. }
  rewrite E. eauto.
Qed.

(** The guard of line 303 does not fire on a span of two lines, and not on a
    grid or pipe span. *)
Lemma setextGuard_two_lines ed s :
  spanLength s = 2 -> setextGuard s (grabTable ed s) = false.
Proof.
  intros H. unfold setextGuard. rewrite grabTable_length, H.
  change (2 <? 2) with false. rewrite andb_false_r. reflexivity.
Qed.

Lemma setextGuard_other_dialect s t :
  potentialTableType s <> simple -> setextGuard s t = false.
Proof.
  intros H. unfold setextGuard. destruct (potentialTableType s); [congruence| |]; reflexivity.
Qed.

End Turn.

(** ** The whole pass *)

Section Pass.

Variable tableHeadingRE : string -> option Match.
Variable Table : Type.
Variable fromMarkdown : string -> dialect -> Table + string.

Lemma blank_empty l : JsString.blank l = false -> 0 < String.length l.
Proof. destruct l; [discriminate|simpl; lia]. Qed.

(** A turn never touches the text, and only ever adds a marked range. *)
Lemma iteration_frame st i st' i' o :
  iteration tableHeadingRE fromMarkdown st i = (st', i', o) ->
  lines (cm st') = lines (cm st)
  /\ exists extra, marks (cm st') = marks (cm st) ++ extra.
Proof.
  intros H. apply iteration_spec in H. destruct o as [|s r|s msg|s t m|].
  - destruct H as (-> & _). split; [reflexivity|]. exists []. symmetry. apply app_nil_r.
  - destruct H as (-> & _). split; [reflexivity|]. exists []. symmetry. apply app_nil_r.
  - destruct H as (-> & _). split; [reflexivity|]. exists []. symmetry. apply app_nil_r.
  - destruct H as (l & _ & _ & _ & -> & _). simpl. split; [reflexivity|]. eauto.
  - destruct H as (-> & _). split; [reflexivity|]. exists []. symmetry. apply app_nil_r.
Qed.

Lemma iteration_advance st i st' i' o :
  iteration tableHeadingRE fromMarkdown st i = (st', i', o) -> o <> Threw -> i <= i'.
Proof.
  intros H Ho. apply iteration_spec in H.
  assert (B : forall s, candidate tableHeadingRE (cm st) i = Found s -> i <= lastLine s).
  { intros s C. apply candidate_found in C. destruct C as (_ & C).
    apply detectSpan_bounds in C. lia. }
  destruct o as [|s r|s msg|s t m|].
  - destruct H as (_ & ->). lia.
  - destruct H as (_ & -> & C & _). auto.
  - destruct H as (_ & -> & C & _). auto.
  - destruct H as (l & _ & _ & _ & _ & -> & C & _). auto.
  - congruence.
Qed.

Lemma iteration_no_throw st i st' i' o :
  i < Host.lineCount (cm st) ->
  iteration tableHeadingRE fromMarkdown st i = (st', i', o) -> o <> Threw.
Proof.
  intros Hi H ->. apply iteration_spec in H. destruct H as (_ & C).
  unfold candidate in C.
  destruct (negb (String.eqb (modeAt (cm st) (mkPos i 0)) markdownZkn)); [discriminate|].
  exact (detectSpan_total tableHeadingRE (cm st) i Hi C).
Qed.

(** One unfolding of the loop. *)
Lemma loop_step fuel to st i final tr :
  loop tableHeadingRE fromMarkdown (S fuel) to st i = Some (final, tr) ->
  (to <= i /\ final = st /\ tr = [])
  \/ (i < to /\ exists st' i' o,
        iteration tableHeadingRE fromMarkdown st i = (st', i', o)
        /\ ((o = Threw /\ final = st' /\ tr = [(i, o)])
            \/ (o <> Threw /\ exists tr',
                  loop tableHeadingRE fromMarkdown fuel to st' (S i') = Some (final, tr')
                  /\ tr = (i, o) :: tr'))).
Proof.
  simpl. destruct (i <? to) eqn:E.
  - apply Nat.ltb_lt in E. intros H. right. split; [exact E|].
    destruct (iteration tableHeadingRE fromMarkdown st i) as [[st' i'] o].
    exists st', i', o. split; [reflexivity|].
    destruct o as [|s r|s msg|s t m|];
      try (right; split; [discriminate|];
           destruct (loop tableHeadingRE fromMarkdown fuel to st' (S i')) as [[f tr']|];
           [injection H as <- <-; exists tr'; auto|discriminate]).
    left. injection H as <- <-. auto.
  - apply Nat.ltb_ge in E. intros H. injection H as <- <-. left. auto.
Qed.

(** The fuel the command gives the loop is enough: the loop ends at the bound
    or at a turn that throws. *)
Lemma loop_enough_fuel fuel : forall to st i,
  to - i < fuel -> loop tableHeadingRE fromMarkdown fuel to st i <> None.
Proof.
  induction fuel as [|fuel IH]; intros to st i Hfuel; [lia|].
  simpl. destruct (i <? to) eqn:E; [|discriminate].
  apply Nat.ltb_lt in E.
  destruct (iteration tableHeadingRE fromMarkdown st i) as [[st' i'] o] eqn:It.
  assert (Next : o <> Threw ->
                 loop tableHeadingRE fromMarkdown fuel to st' (S i') <> None).
  { intros Ho. apply IH. pose proof (iteration_advance _ _ _ _ _ It Ho). lia. }
  destruct o as [|s r|s msg|s t m|]; try discriminate;
    (destruct (loop tableHeadingRE fromMarkdown fuel to st' (S i')) as [[f tr]|];
     [discriminate|exfalso; apply Next; [discriminate|reflexivity]]).
Qed.

Lemma markdownRenderTables_returns st :
  markdownRenderTables tableHeadingRE fromMarkdown st <> None.
Proof.
  unfold markdownRenderTables. destruct (viewport (cm st)) as [from to].
  apply loop_enough_fuel. lia.
Qed.

(** No turn throws when the viewport lies within the document. *)
Lemma loop_total fuel : forall to st i,
  to - i < fuel -> to <= Host.lineCount (cm st) ->
  exists final tr,
    loop tableHeadingRE fromMarkdown fuel to st i = Some (final, tr)
    /\ forall k, ~ In (k, Threw) tr.
Proof.
  induction fuel as [|fuel IH]; intros to st i Hfuel Hto; [lia|].
  simpl. destruct (i <? to) eqn:E.
  - apply Nat.ltb_lt in E.
    destruct (iteration tableHeadingRE fromMarkdown st i) as [[st' i'] o] eqn:It.
    assert (Hi : i < Host.lineCount (cm st)) by lia.
    pose proof (iteration_no_throw st i st' i' o Hi It) as Ho.
    pose proof (iteration_advance _ _ _ _ _ It Ho) as Hadv.
    destruct (iteration_frame _ _ _ _ _ It) as (Hlines & _).
    destruct (IH to st' (S i')) as (final & tr & L & Hno).
    { lia. }
    { unfold Host.lineCount in *. rewrite Hlines. exact Hto. }
    rewrite L. exists final, ((i, o) :: tr).
    split.
    + destruct o; try reflexivity. congruence.
    + intros k [H|H]; [injection H as _ H; congruence|exact (Hno k H)].
  - exists st, []. split; [reflexivity|]. intros k [].
Qed.

Lemma loop_indices fuel : forall to st i final tr,
  loop tableHeadingRE fromMarkdown fuel to st i = Some (final, tr) ->
  forall k o, In (k, o) tr -> i <= k < to.
Proof.
  induction fuel as [|fuel IH]; intros to st i final tr H k o Hin; [discriminate|].
  apply loop_step in H.
  destruct H as [(_ & _ & ->)|(Hi & st' & i' & o' & It & H)]; [destruct Hin|].
  destruct H as [(-> & _ & ->)|(Ho & tr' & L & ->)].
  - destruct Hin as [E|[]]. injection E as <- _. lia.
  - destruct Hin as [E|Hin].
    + injection E as <- _. lia.
    + pose proof (iteration_advance _ _ _ _ _ It Ho).
      specialize (IH _ _ _ _ _ L k o Hin). lia.
Qed.

(** A span that starts above the heading line starts on a non-blank line. *)
Lemma detectSpan_header_row ed i s :
  detectSpan tableHeadingRE ed i = Found s ->
  firstLine s < i -> nonBlankAt ed (firstLine s).
Proof.
  unfold detectSpan.
  destruct (execLine tableHeadingRE (Host.getLine ed i)) as [m|]; [|discriminate].
  assert (Headed : noLineAbove ed i = Normal false ->
                   forall ty, spanCheck (Some (i - 1))
                     (option_map (fun j => j - 1) (blankFrom ed i)) ty = Found s ->
                   nonBlankAt ed (firstLine s)).
  { intros A ty H. apply noLineAbove_false in A. destruct A as (Hi & A).
    apply headed_span in H; [|exact Hi]. destruct H as (-> & _). exact A. }
  assert (Same : forall last ty, spanCheck (Some i) last ty = Found s ->
                 firstLine s < i -> nonBlankAt ed (firstLine s)).
  { intros last ty H. apply spanCheck_found in H.
    destruct H as (f & l & Ef & _ & _ & ->). injection Ef as <-. simpl. lia. }
  destruct (group1 m).
  - destruct (Host.getLine ed (i + 1)) as [nextLine|]; [|discriminate].
    destruct (JsString.blank nextLine); [discriminate|].
    destruct (noLineAbove ed i) as [[|]|] eqn:A; [| |discriminate].
    + apply Same.
    + intros H _. exact (Headed eq_refl simple H).
  - destruct (group2 m); [apply Same|].
    destruct (group3 m); [|discriminate].
    destruct (noLineAbove ed i) as [[|]|] eqn:A; try discriminate.
    intros H _. exact (Headed eq_refl pipe H).
Qed.

Lemma filter_nil_false {A} (f : A -> bool) l x :
  filter f l = [] -> In x l -> f x = false.
Proof.
  intros E Hin. destruct (f x) eqn:F; [|reflexivity].
  assert (H : In x (filter f l)) by (apply filter_In; auto).
  rewrite E in H. destruct H.
Qed.

(** What a turn that validates a span knows about it. *)
Lemma validated_turn st i st' i' o s :
  iteration tableHeadingRE fromMarkdown st i = (st', i', o) ->
  validatedSpan o = Some s ->
  i' = lastLine s
  /\ candidate tableHeadingRE (cm st) i = Found s
  /\ unmarked (cm st) s.
Proof.
  intros H V. apply iteration_spec in H.
  destruct o as [|s0 r|s0 msg|s0 t m|]; simpl in V; try discriminate.
  - destruct r; try discriminate. injection V as ->.
    destruct H as (_ & -> & C & U). auto.
  - injection V as ->. destruct H as (_ & -> & C & U). auto.
  - injection V as ->. destruct H as (l & _ & _ & _ & _ & -> & C & U). auto.
Qed.

(** Every validated span of the rest of the pass, seen from the loop index
    [i] and the marked ranges present when the loop is there. *)
Lemma loop_validated fuel : forall to st i final tr,
  loop tableHeadingRE fromMarkdown fuel to st i = Some (final, tr) ->
  forall k o s, In (k, o) tr -> validatedSpan o = Some s ->
    i <= k /\ k <= S (firstLine s) /\ firstLine s < lastLine s
    /\ (firstLine s < k ->
        exists h, nth_error (lines (cm st)) (firstLine s) = Some h
                  /\ JsString.blank h = false)
    /\ exists l, nth_error (lines (cm st)) (lastLine s) = Some l
                 /\ forall mk, In mk (marks (cm st)) ->
                      Host.overlaps (mkPos (firstLine s) 0)
                                    (mkPos (lastLine s) (String.length l)) mk = false.
Proof.
  induction fuel as [|fuel IH]; intros to st i final tr H k o s Hin V; [discriminate|].
  apply loop_step in H.
  destruct H as [(_ & _ & ->)|(Hi & st' & i' & o' & It & H)]; [destruct Hin|].
  assert (Head : In (k, o) [(i, o')] ->
                 i <= k /\ k <= S (firstLine s) /\ firstLine s < lastLine s
                 /\ (firstLine s < k ->
                     exists h, nth_error (lines (cm st)) (firstLine s) = Some h
                               /\ JsString.blank h = false)
                 /\ exists l, nth_error (lines (cm st)) (lastLine s) = Some l
                      /\ forall mk, In mk (marks (cm st)) ->
                           Host.overlaps (mkPos (firstLine s) 0)
                             (mkPos (lastLine s) (String.length l)) mk = false).
  { intros [E|[]]. injection E as <- <-.
    destruct (validated_turn _ _ _ _ _ _ It V) as (_ & C & (l & G & F)).
    apply candidate_found in C. destruct C as (_ & D).
    pose proof (detectSpan_bounds _ _ _ _ D) as B.
    repeat split; try lia.
    - intros Hlt. exact (detectSpan_header_row _ _ _ D Hlt).
    - exists l. split; [exact G|].
      intros mk Hmk. exact (filter_nil_false _ _ _ F Hmk). }
  destruct H as [(-> & _ & ->)|(Ho & tr' & L & ->)]; [exact (Head Hin)|].
  destruct Hin as [E|Hin]; [apply Head; left; exact E|].
  pose proof (iteration_advance _ _ _ _ _ It Ho) as Hadv.
  destruct (iteration_frame _ _ _ _ _ It) as (Hlines & extra & Hmarks).
  destruct (IH _ _ _ _ _ L k o s Hin V) as (H1 & H2 & H3 & H4 & l & H5 & H6).
  rewrite Hlines in H4, H5.
  repeat split; try lia; try exact H4.
  exists l. split; [exact H5|].
  intros mk Hmk. apply H6. rewrite Hmarks. apply in_or_app. left. exact Hmk.
Qed.

Lemma loop_inOrder fuel : forall to st i final tr,
  loop tableHeadingRE fromMarkdown fuel to st i = Some (final, tr) ->
  ForallOrdPairs inOrder (map snd tr).
Proof.
  induction fuel as [|fuel IH]; intros to st i final tr H; [discriminate|].
  apply loop_step in H.
  destruct H as [(_ & _ & ->)|(Hi & st' & i' & o & It & H)]; [constructor|].
  destruct H as [(-> & _ & ->)|(Ho & tr' & L & ->)].
  { simpl. constructor; constructor. }
  simpl. constructor; [|exact (IH _ _ _ _ _ L)].
  apply Forall_forall. intros o2 Hin2.
  apply in_map_iff in Hin2. destruct Hin2 as ([k2 o2'] & E & Hin2). simpl in E. subst o2'.
  intros s1 s2 V1 V2.
  destruct (validated_turn _ _ _ _ _ _ It V1) as (-> & C1 & (l1 & G1 & _)).
  destruct (loop_validated _ _ _ _ _ _ L k2 o2 s2 Hin2 V2)
    as (Hk & Hk' & Hlt & Hrow & l2 & G2 & Hmarks).
  split; [lia|].
  intros R. destruct o as [|? ?|? ?|s t m|]; try destruct R.
  simpl in V1. injection V1 as ->.
  apply iteration_spec in It.
  destruct It as (l & G & _ & _ & -> & _ & C & _). simpl in *.
  assert (l = l1) by (unfold Host.getLine in *; congruence). subst l.
  destruct (Nat.eq_dec (firstLine s2) (lastLine s1)) as [E|]; [exfalso|lia].
  destruct Hrow as (h & Gh & Bh); [lia|].
  rewrite E in Gh. unfold Host.getLine in G1.
  assert (h = l1) by congruence. subst h.
  apply blank_empty in Bh.
  apply candidate_found in C. destruct C as (_ & D).
  apply detectSpan_bounds in D.
  specialize (Hmarks (mkMarker (mkPos (firstLine s1) 0)
                        (mkPos (lastLine s1) (String.length l1)) (oid t) false)).
  rewrite in_app_iff in Hmarks. specialize (Hmarks (or_intror (or_introl eq_refl))).
  unfold Host.overlaps, pos_ltb in Hmarks. simpl in Hmarks.
  assert (A1 : (firstLine s1 <? lastLine s2) = true) by (apply Nat.ltb_lt; lia).
  assert (A2 : (firstLine s2 =? lastLine s1) = true) by (apply Nat.eqb_eq; lia).
  assert (A3 : (0 <? String.length l1) = true) by (apply Nat.ltb_lt; lia).
  rewrite A1, A2, A3 in Hmarks. simpl in Hmarks.
  rewrite orb_true_r in Hmarks. discriminate.
Qed.

(** After a turn that fixed a span, the loop goes on at the line below the
    span whenever that line is still inside the bound. *)
Lemma loop_continues fuel : forall to st i final tr,
  loop tableHeadingRE fromMarkdown fuel to st i = Some (final, tr) ->
  forall k o s, In (k, o) tr -> spanOf o = Some s -> S (lastLine s) < to ->
    exists o', In (S (lastLine s), o') tr.
Proof.
  induction fuel as [|fuel IH]; intros to st i final tr H k o s Hin V Hlt; [discriminate|].
  apply loop_step in H.
  destruct H as [(_ & _ & ->)|(Hi & st' & i' & o1 & It & H)]; [destruct Hin|].
  destruct H as [(-> & _ & ->)|(Ho & tr' & L & ->)].
  { destruct Hin as [E|[]]. injection E as _ <-. discriminate. }
  destruct Hin as [E|Hin].
  - injection E as <- <-.
    assert (Ei : i' = lastLine s).
    { apply iteration_spec in It.
      destruct o1 as [|s0 r|s0 msg|s0 t m|]; simpl in V; try discriminate;
        injection V as ->.
      - destruct It as (_ & -> & _). reflexivity.
      - destruct It as (_ & -> & _). reflexivity.
      - destruct It as (l & _ & _ & _ & _ & -> & _). reflexivity. }
    subst i'. destruct fuel as [|fuel']; [discriminate|].
    apply loop_step in L.
    destruct L as [(Hge & _)|(_ & st2 & i2 & o2 & _ & [(_ & _ & ->)|(_ & tr2 & _ & ->)])].
    + lia.
    + exists o2. right. left. reflexivity.
    + exists o2. right. left. reflexivity.
  - destruct (IH _ _ _ _ _ L k o s Hin V Hlt) as (o' & Ho').
    exists o'. right. exact Ho'.
Qed.

(** C4, as the code has it -- in one pass the validated spans come in order:
    a later span starts no earlier than the last line of an earlier one, so
    the two share at most that one line, and they share no line at all when
    the earlier span was bound. *)
Theorem validated_spans_in_order st final tr :
  markdownRenderTables tableHeadingRE fromMarkdown st = Some (final, tr) ->
  ForallOrdPairs inOrder (map snd tr).
Proof.
  unfold markdownRenderTables. destruct (viewport (cm st)) as [from to].
  apply loop_inOrder.
Qed.

(** Two validated spans in order share no line but the boundary one, and
    none when the earlier one was bound. *)
Lemma inOrder_shared_line (o1 o2 : outcome Table) s1 s2 n :
  inOrder o1 o2 ->
  validatedSpan o1 = Some s1 -> validatedSpan o2 = Some s2 ->
  inside s1 n -> inside s2 n ->
  n = lastLine s1 /\ n = firstLine s2 /\ ~ rendered o1.
Proof.
  intros H V1 V2 (A & B) (C & D). destruct (H s1 s2 V1 V2) as (Hle & Hr).
  repeat split; try lia. intros R. specialize (Hr R). lia.
Qed.

(** C9 -- when the constructor throws, the turn leaves the editor (and with
    it the marked ranges) and the registry as they were and the loop goes on
    below the span; and a pass over a viewport that lies within the document
    comes to its end without throwing, visiting the line below every span it
    failed to construct. *)
Theorem construction_failure_is_local :
  (forall st i st' i' s msg,
     iteration tableHeadingRE fromMarkdown st i = (st', i', Failed s msg) ->
     cm st' = cm st /\ tables st' = tables st
     /\ forall fuel to, i < to ->
          loop tableHeadingRE fromMarkdown (S fuel) to st i
          = match loop tableHeadingRE fromMarkdown fuel to st' (S (lastLine s)) with
            | Some (final, tr) => Some (final, (i, Failed s msg) :: tr)
            | None => None
            end)
  /\ (forall st,
        snd (viewport (cm st)) <= Host.lineCount (cm st) ->
        exists final tr,
          markdownRenderTables tableHeadingRE fromMarkdown st = Some (final, tr)
          /\ (forall k, ~ In (k, Threw) tr)
          /\ (forall k s msg, In (k, Failed s msg) tr ->
                S (lastLine s) < snd (viewport (cm st)) ->
                exists o, In (S (lastLine s), o) tr)).
Proof.
  split.
  - intros st i st' i' s msg It.
    pose proof (iteration_spec _ _ _ _ _ _ _ _ It) as Sp. simpl in Sp.
    destruct Sp as (E & Ei & _). subst st' i'. simpl.
    repeat split.
    intros fuel to Hi. simpl. apply Nat.ltb_lt in Hi. rewrite Hi, It. reflexivity.
  - intros st Hvp. unfold markdownRenderTables.
    destruct (viewport (cm st)) as [from to] eqn:V. simpl in Hvp.
    destruct (loop_total (S (to - from)) to st from) as (final & tr & L & Hno);
      [lia|exact Hvp|].
    exists final, tr. repeat split; [exact L|exact Hno|].
    intros k s msg Hin Hlt.
    exact (loop_continues _ _ _ _ _ _ L k (Failed s msg) s Hin eq_refl Hlt).
Qed.

(** The indices at which the heading test runs lie within the viewport. *)
Lemma tested_within_viewport st final tr :
  markdownRenderTables tableHeadingRE fromMarkdown st = Some (final, tr) ->
  forall k o, In (k, o) tr ->
    fst (viewport (cm st)) <= k < snd (viewport (cm st)).
Proof.
  unfold markdownRenderTables. destruct (viewport (cm st)) as [from to].
  cbn [fst snd]. apply loop_indices.
Qed.

End Pass.

(** ** The write-back reaction *)

Section WriteBack.

Variable Table : Type.
Variable getMarkdownTable : Table -> string.

Lemma find_live whenGone ed m :
  liveMarker ed m ->
  exists from to, find whenGone ed m = FindRange from to.
Proof.
  intros (mk & G & L). unfold find. rewrite G, L. eauto.
Qed.

Lemma find_cleared ed m :
  clearedMarker ed m -> find GoneFalse ed m = FindFalse.
Proof.
  intros (mk & G & L). unfold find. rewrite G, L. reflexivity.
Qed.

Lemma updateAt_nth {A} (f : A -> A) l : forall n,
  nth_error (Host.updateAt f n l) n = option_map f (nth_error l n).
Proof.
  induction l as [|x l IH]; intros [|n]; simpl; auto.
Qed.

Lemma indexOfFrom_skip (pre : list (Instance Table)) x post t : forall k,
  (forall y, In y pre -> oid y <> oid t) -> oid x = oid t ->
  indexOfFrom (pre ++ x :: post) t k = (k + Z.of_nat (List.length pre))%Z.
Proof.
  induction pre as [|y pre IH]; intros k Hpre Hx; simpl.
  - rewrite Hx, Nat.eqb_refl. lia.
  - destruct (oid y =? oid t) eqn:E.
    + apply Nat.eqb_eq in E. exfalso. apply (Hpre y); [left; reflexivity|exact E].
    + rewrite IH; [lia| |exact Hx]. intros z Hz. apply Hpre. right. exact Hz.
Qed.

Lemma splice1_middle {A} (pre : list A) x post :
  splice1 (Z.of_nat (List.length pre)) (pre ++ x :: post) = pre ++ post.
Proof.
  unfold splice1.
  destruct (Z.of_nat (List.length pre) <? 0)%Z eqn:E; [apply Z.ltb_lt in E; lia|].
  rewrite Z.min_l by (rewrite length_app; simpl; lia).
  rewrite Nat2Z.id. clear E.
  induction pre as [|y pre IH]; [reflexivity|].
  cbn [List.length firstn app]. rewrite skipn_cons. simpl. f_equal. exact IH.
Qed.

(** What the reaction does when the marker still resolves to a range. *)
Lemma onBlur_live whenGone st t m :
  liveMarker (cm st) m ->
  exists st',
    onBlur getMarkdownTable whenGone (Some m) t st = Normal st'
    /\ tables st'
       = (if (indexOf (tables st) t =? 0)%Z then tables st
          else splice1 (indexOf (tables st) t) (tables st))
    /\ clearedMarker (cm st') m.
Proof.
  intros (mk & G & L). unfold onBlur, find. rewrite G, L.
  eexists. split; [reflexivity|]. split; [reflexivity|].
  simpl. unfold clearedMarker. simpl. rewrite updateAt_nth, G. simpl.
  eexists. split; reflexivity.
Qed.

(** The instance is removed, and only it, when it is not the first of the
    registry. *)
Lemma write_back_removes_later whenGone st t m pre x post :
  liveMarker (cm st) m ->
  tables st = pre ++ x :: post -> pre <> [] ->
  (forall y, In y pre -> oid y <> oid t) -> oid x = oid t ->
  exists st',
    onBlur getMarkdownTable whenGone (Some m) t st = Normal st'
    /\ tables st' = pre ++ post.
Proof.
  intros Hlive Ht Hpre Hnot Hx.
  destruct (onBlur_live whenGone st t m Hlive) as (st' & E & T & _).
  exists st'. split; [exact E|]. rewrite T, Ht. unfold indexOf.
  rewrite (indexOfFrom_skip pre x post t 0%Z Hnot Hx).
  destruct pre as [|y pre]; [congruence|].
  destruct (0 + Z.of_nat (List.length (y :: pre)) =? 0)%Z eqn:E0.
  - apply Z.eqb_eq in E0. simpl in E0. lia.
  - rewrite Z.add_0_l. apply splice1_middle.
Qed.

(** The first instance of the registry stays in it. *)
Lemma write_back_keeps_first whenGone st t m x rest :
  liveMarker (cm st) m ->
  tables st = x :: rest -> oid x = oid t ->
  exists st',
    onBlur getMarkdownTable whenGone (Some m) t st = Normal st'
    /\ tables st' = tables st.
Proof.
  intros Hlive Ht Hx.
  destruct (onBlur_live whenGone st t m Hlive) as (st' & E & T & _).
  exists st'. split; [exact E|]. rewrite T, Ht. unfold indexOf. simpl.
  rewrite Hx, Nat.eqb_refl. reflexivity.
Qed.

(** The guard of line 318 on a host that reports a cleared marker by
    [find() === false]: the reaction returns at once. *)
Theorem stale_binding_is_noop st t m :
  clearedMarker (cm st) m ->
  onBlur getMarkdownTable GoneFalse (Some m) t st = Normal st.
Proof.
  intros H. unfold onBlur. rewrite (find_cleared _ _ H). reflexivity.
Qed.

(** The guard compares with [false] only: on a host whose [find()] yields
    [undefined] for a cleared marker, as CodeMirror's does, the reaction gets
    past it and the destructuring of the second [find()] throws. *)
Lemma stale_binding_undefined_throws st t m :
  clearedMarker (cm st) m ->
  onBlur getMarkdownTable GoneUndefined (Some m) t st = Throw "TypeError".
Proof.
  intros (mk & G & L). unfold onBlur, find. rewrite G, L. reflexivity.
Qed.

End WriteBack.

(** ** The viewport *)

(** C10 -- the heading test runs only at indices from [viewport.from] up to,
    and not including, [viewport.to], so never at index [viewport.to]; the
    detection itself never reads the viewport, and a span fixed from inside
    it can end below it. *)
Theorem viewport_limits_heading_test_only :
  (forall re Table (fromMarkdown : string -> dialect -> Table + string) st final tr,
     markdownRenderTables re fromMarkdown st = Some (final, tr) ->
     forall k o, In (k, o) tr ->
       fst (viewport (cm st)) <= k < snd (viewport (cm st)))
  /\ (forall re ed vp i, detectSpan re (withViewport ed vp) i = detectSpan re ed i)
  /\ (exists st k s t m,
        In (k, Rendered s t m) (Sample.traceOf st)
        /\ k < snd (viewport (cm st)) /\ snd (viewport (cm st)) < lastLine s).
Proof.
  split; [|split].
  - intros re Table fromMarkdown st final tr H. exact (tested_within_viewport _ _ _ _ _ _ H).
  - reflexivity.
  - exists Sample.narrowStart, 1, (mkSpan 0 4 pipe), Sample.narrowTable, 0.
    split; [|split].
    + right. left. reflexivity.
    + simpl. lia.
    + simpl. lia.
Qed.

(** ** The statements on concrete documents *)

(** C1, as stated, fails: the two lines ["-----"; "-----"] are a span of
    exactly two lines of the simple dialect whose second line is made of
    dashes only, and the turn constructs, binds and registers a table. *)
Lemma two_line_dash_span_is_converted :
  candidate Sample.headingRE (cm Sample.twoStart) 0 = Found (mkSpan 0 1 simple)
  /\ spanLength (mkSpan 0 1 simple) = 2
  /\ Host.getLine (cm Sample.twoStart) 1 = Some "-----"
  /\ JsString.dashRule "-----" = true
  /\ snd (iteration Sample.headingRE Sample.fromRows Sample.twoStart 0)
     = Rendered (mkSpan 0 1 simple) (mkInstance 0 ["-----"; "-----"]) 0
  /\ tables (Sample.stateAfter Sample.twoStart) = [mkInstance 0 ["-----"; "-----"]].
Proof.
  repeat split; vm_compute; reflexivity.
Qed.

Lemma setext_guard_rejects_witness :
  candidate Sample.headingRE (cm Sample.setextStart) 1 = Found (mkSpan 0 2 simple)
  /\ 2 < spanLength (mkSpan 0 2 simple)
  /\ Host.getLine (cm Sample.setextStart) 1 = Some "-----"
  /\ JsString.dashRule "-----" = true
  /\ exists r, iteration Sample.headingRE Sample.fromRows Sample.setextStart 1
               = (Sample.setextStart, 2, Rejected (mkSpan 0 2 simple) r).
Proof.
  assert (C : candidate Sample.headingRE (cm Sample.setextStart) 1
              = Found (mkSpan 0 2 simple)) by (vm_compute; reflexivity).
  assert (L : 2 < spanLength (mkSpan 0 2 simple)) by (vm_compute; lia).
  assert (G : Host.getLine (cm Sample.setextStart) (firstLine (mkSpan 0 2 simple) + 1)
              = Some "-----") by (vm_compute; reflexivity).
  assert (D : JsString.dashRule "-----" = true) by (vm_compute; reflexivity).
  split; [exact C|]. split; [exact L|]. split; [exact G|]. split; [exact D|].
  exact (setext_guard_rejects Sample.headingRE Sample.Rows Sample.fromRows
           Sample.setextStart 1 (mkSpan 0 2 simple) "-----" C eq_refl L G D).
Defined.

(** C4, as stated, fails: when the constructor throws on the first of two
    tables that touch, both spans get past the cursor, marker and mode checks
    (and past the guard of line 303), and line 2 belongs to both. *)
Lemma validated_spans_share_a_line :
  spansOf validatedSpan (Sample.traceOf Sample.chainStart)
  = [mkSpan 0 2 simple; mkSpan 2 4 simple]
  /\ inside (mkSpan 0 2 simple) 2 /\ inside (mkSpan 2 4 simple) 2
  /\ ~ disjoint (mkSpan 0 2 simple) (mkSpan 2 4 simple).
Proof.
  split; [vm_compute; reflexivity|].
  assert (A : inside (mkSpan 0 2 simple) 2) by (unfold inside; simpl; lia).
  assert (B : inside (mkSpan 2 4 simple) 2) by (unfold inside; simpl; lia).
  split; [exact A|]. split; [exact B|].
  intros H. exact (H 2 (conj A B)).
Qed.

Lemma validated_spans_in_order_witness :
  Sample.run Sample.chainStart
  = Some (Sample.stateAfter Sample.chainStart, Sample.traceOf Sample.chainStart)
  /\ ForallOrdPairs inOrder (map snd (Sample.traceOf Sample.chainStart)).
Proof.
  assert (H : Sample.run Sample.chainStart
              = Some (Sample.stateAfter Sample.chainStart,
                      Sample.traceOf Sample.chainStart))
    by (vm_compute; reflexivity).
  split; [exact H|].
  exact (validated_spans_in_order Sample.headingRE Sample.Rows Sample.fromRows
           Sample.chainStart _ _ H).
Defined.

Lemma cursor_inside_rejected_witness :
  candidate Sample.headingRE (cm Sample.pipeEditing) 1 = Found Sample.pipeSpan
  /\ inside Sample.pipeSpan (line (cursor (cm Sample.pipeEditing)))
  /\ iteration Sample.headingRE Sample.fromRows Sample.pipeEditing 1
     = (Sample.pipeEditing, 2, Rejected Sample.pipeSpan CursorInside).
Proof.
  assert (C : candidate Sample.headingRE (cm Sample.pipeEditing) 1
              = Found Sample.pipeSpan) by (vm_compute; reflexivity).
  assert (I : inside Sample.pipeSpan (line (cursor (cm Sample.pipeEditing))))
    by (unfold inside; simpl; lia).
  split; [exact C|]. split; [exact I|].
  exact (cursor_inside_rejected Sample.headingRE Sample.Rows Sample.fromRows
           Sample.pipeEditing 1 Sample.pipeSpan C I).
Defined.

Lemma mode_mismatch_rejected_witness :
  candidate Sample.headingRE (cm Sample.frontmatterStart) 0 = Found (mkSpan 0 2 simple)
  /\ modeAt (cm Sample.frontmatterStart) (mkPos 2 0) <> markdownZkn
  /\ exists r, iteration Sample.headingRE Sample.fromRows Sample.frontmatterStart 0
               = (Sample.frontmatterStart, 2, Rejected (mkSpan 0 2 simple) r)
               /\ r <> SetextHeading.
Proof.
  assert (C : candidate Sample.headingRE (cm Sample.frontmatterStart) 0
              = Found (mkSpan 0 2 simple)) by (vm_compute; reflexivity).
  assert (M : modeAt (cm Sample.frontmatterStart) (mkPos 2 0) <> markdownZkn)
    by (vm_compute; discriminate).
  split; [exact C|]. split; [exact M|].
  exact (mode_mismatch_rejected Sample.headingRE Sample.Rows Sample.fromRows
           Sample.frontmatterStart 0 (mkSpan 0 2 simple) C (or_intror M)).
Defined.

Lemma pipe_rule_span_witness :
  (Host.getLine (Sample.plain Sample.pipeDoc) 1 = Some "| - | - |"
   /\ Sample.headingRE "| - | - |" = Some (mkMatch false false true)
   /\ nonBlankAt (Sample.plain Sample.pipeDoc) 0
   /\ firstBlankAt (Sample.plain Sample.pipeDoc) 1 3
   /\ detectSpan Sample.headingRE (Sample.plain Sample.pipeDoc) 1
      = Found (mkSpan 0 2 pipe))
  /\ (Host.getLine (Sample.plain Sample.bareSeparatorDoc) 0 = Some "| - | - |"
      /\ detectSpan Sample.headingRE (Sample.plain Sample.bareSeparatorDoc) 0 = NoTable).
Proof.
  assert (G : Host.getLine (Sample.plain Sample.pipeDoc) 1 = Some "| - | - |")
    by reflexivity.
  assert (M : Sample.headingRE "| - | - |" = Some (mkMatch false false true))
    by (vm_compute; reflexivity).
  assert (A : nonBlankAt (Sample.plain Sample.pipeDoc) (1 - 1)).
  { exists "| A | B |". split; vm_compute; reflexivity. }
  assert (K : firstBlankAt (Sample.plain Sample.pipeDoc) 1 3).
  { split; [lia|]. split.
    - exists "". split; vm_compute; reflexivity.
    - intros n Hn. assert (E : n = 1 \/ n = 2) by lia. destruct E as [->| ->].
      + exists "| - | - |". split; vm_compute; reflexivity.
      + exists "| 1 | 2 |". split; vm_compute; reflexivity. }
  assert (G0 : Host.getLine (Sample.plain Sample.bareSeparatorDoc) 0 = Some "| - | - |")
    by reflexivity.
  split.
  - split; [exact G|]. split; [exact M|]. split; [exact A|]. split; [exact K|].
    exact (proj1 (pipe_rule_span Sample.headingRE (Sample.plain Sample.pipeDoc) 1
                    "| - | - |" (mkMatch false false true) G M eq_refl eq_refl eq_refl)
                 3 (le_n 1) A eq_refl K).
  - split; [exact G0|].
    exact (proj2 (pipe_rule_span Sample.headingRE (Sample.plain Sample.bareSeparatorDoc) 0
                    "| - | - |" (mkMatch false false true) G0 M eq_refl eq_refl eq_refl)
                 (or_introl eq_refl)).
Defined.

Lemma simple_rule_span_witness :
  detectSpan Sample.headingRE (Sample.plain Sample.headlessSimpleDoc) 0
  = Found (mkSpan 0 3 simple)
  /\ detectSpan Sample.headingRE (Sample.plain Sample.brokenHeadlessDoc) 0 = NoTable
  /\ detectSpan Sample.headingRE (Sample.plain Sample.headedSimpleDoc) 1
     = Found (mkSpan 0 3 simple).
Proof.
  assert (M : Sample.headingRE "----  ----" = Some (mkMatch true false false))
    by (vm_compute; reflexivity).
  assert (B : JsString.blank "a     1" = false) by (vm_compute; reflexivity).
  split; [|split].
  - refine (proj1 (proj1 (simple_rule_span Sample.headingRE
                            (Sample.plain Sample.headlessSimpleDoc) 0 "----  ----"
                            (mkMatch true false false) "a     1"
                            eq_refl M eq_refl eq_refl B)
                         (or_introl eq_refl))
                  3 _ _ _ _).
    + lia.
    + intros n Hn. assert (E : n = 1 \/ n = 2) by lia. destruct E as [->| ->].
      * split; [exists "a     1"; split; vm_compute; reflexivity|].
        intros (l & G & A). vm_compute in G. injection G as <-.
        vm_compute in A. discriminate.
      * split; [exists "b     2"; split; vm_compute; reflexivity|].
        intros (l & G & A). vm_compute in G. injection G as <-.
        vm_compute in A. discriminate.
    + exists "----  ----". split; vm_compute; reflexivity.
    + exists "----  ----". split; vm_compute; reflexivity.
  - refine (proj2 (proj1 (simple_rule_span Sample.headingRE
                            (Sample.plain Sample.brokenHeadlessDoc) 0 "----  ----"
                            (mkMatch true false false) "a     1"
                            eq_refl M eq_refl eq_refl B)
                         (or_introl eq_refl))
                  2 _ _ _).
    + lia.
    + exists "". split; vm_compute; reflexivity.
    + intros n Hn. assert (E : n = 1) by lia. subst n.
      intros (l & G & A). vm_compute in G. injection G as <-.
      vm_compute in A. discriminate.
  - refine (proj2 (simple_rule_span Sample.headingRE
                     (Sample.plain Sample.headedSimpleDoc) 1 "----  ----"
                     (mkMatch true false false) "a     1"
                     eq_refl M eq_refl eq_refl B)
                  _ _ 4 _ _).
    + lia.
    + exists "Name  Size". split; vm_compute; reflexivity.
    + split; [lia|]. split.
      * exists "". split; vm_compute; reflexivity.
      * intros n Hn. assert (E : n = 1 \/ n = 2 \/ n = 3) by lia.
        destruct E as [->|[->| ->]].
        -- exists "----  ----". split; vm_compute; reflexivity.
        -- exists "a     1". split; vm_compute; reflexivity.
        -- exists "b     2". split; vm_compute; reflexivity.
    + lia.
Defined.

Lemma construction_failure_is_local_witness :
  (iteration Sample.headingRE Sample.fromRows Sample.chainStart 0
   = (Sample.chainFailed, 2, Failed (mkSpan 0 2 simple) Sample.malformed)
   /\ cm Sample.chainFailed = cm Sample.chainStart
   /\ tables Sample.chainFailed = tables Sample.chainStart)
  /\ (snd (viewport (cm Sample.chainStart)) <= Host.lineCount (cm Sample.chainStart)
      /\ exists final tr,
           Sample.run Sample.chainStart = Some (final, tr)
           /\ (forall k, ~ In (k, Threw) tr)
           /\ (forall k s msg, In (k, Failed s msg) tr ->
                 S (lastLine s) < snd (viewport (cm Sample.chainStart)) ->
                 exists o, In (S (lastLine s), o) tr)).
Proof.
  destruct (construction_failure_is_local Sample.headingRE Sample.Rows Sample.fromRows)
    as (Turn & Whole).
  assert (It : iteration Sample.headingRE Sample.fromRows Sample.chainStart 0
               = (Sample.chainFailed, 2, Failed (mkSpan 0 2 simple) Sample.malformed))
    by (vm_compute; reflexivity).
  assert (V : snd (viewport (cm Sample.chainStart))
              <= Host.lineCount (cm Sample.chainStart)) by (vm_compute; lia).
  split.
  - split; [exact It|].
    destruct (Turn _ _ _ _ _ _ It) as (E1 & E2 & _). split; [exact E1|exact E2].
  - split; [exact V|]. exact (Whole Sample.chainStart V).
Defined.

Lemma viewport_limits_heading_test_only_witness :
  Sample.run Sample.narrowStart
  = Some (Sample.stateAfter Sample.narrowStart, Sample.traceOf Sample.narrowStart)
  /\ forall k o, In (k, o) (Sample.traceOf Sample.narrowStart) -> 0 <= k < 2.
Proof.
  assert (H : Sample.run Sample.narrowStart
              = Some (Sample.stateAfter Sample.narrowStart,
                      Sample.traceOf Sample.narrowStart))
    by (vm_compute; reflexivity).
  split; [exact H|].
  exact (proj1 viewport_limits_heading_test_only Sample.headingRE Sample.Rows
           Sample.fromRows Sample.narrowStart _ _ H).
Defined.

(** C3 on the code -- the marked range of the pipe table was cleared before
    the reaction fires; CodeMirror's [find()] then returns [undefined], the
    guard of line 318 (which compares with [false]) does not fire, and the
    reaction throws at the destructuring of line 330 instead of returning. *)
Lemma stale_binding_throws_on_host :
  clearedMarker (cm Sample.staleState) 0
  /\ find codeMirrorFind (cm Sample.staleState) 0 = FindUndefined
  /\ onBlur Sample.toMarkdown codeMirrorFind (Some 0) Sample.pipeTable Sample.staleState
     = Throw "TypeError".
Proof.
  split; [|split; reflexivity].
  exists (mkMarker (mkPos 0 0) (mkPos 2 9) 0 true). split; vm_compute; reflexivity.
Qed.

(** C2 on the code -- the pass over the pipe table registers its table as the
    first entry of the registry and binds it; the reaction then fires with
    the marker still live, writes the text back and clears the marker, and
    the registry still holds the table. *)
Lemma first_instance_survives_write_back :
  tables (Sample.stateAfter Sample.pipeStart) = [Sample.pipeTable]
  /\ liveMarker (cm (Sample.stateAfter Sample.pipeStart)) 0
  /\ indexOf (tables (Sample.stateAfter Sample.pipeStart)) Sample.pipeTable = 0%Z
  /\ exists st',
       onBlur Sample.toMarkdown GoneFalse (Some 0) Sample.pipeTable
              (Sample.stateAfter Sample.pipeStart) = Normal st'
       /\ clearedMarker (cm st') 0
       /\ lines (cm st') = Sample.pipeDoc
       /\ tables st' = [Sample.pipeTable]
       /\ registered (tables st') Sample.pipeTable.
Proof.
  split; [vm_compute; reflexivity|].
  split; [exists (mkMarker (mkPos 0 0) (mkPos 2 9) 0 false); split; vm_compute; reflexivity|].
  split; [vm_compute; reflexivity|].
  eexists. split; [vm_compute; reflexivity|].
  split; [exists (mkMarker (mkPos 0 0) (mkPos 2 9) 0 true); split; reflexivity|].
  split; [reflexivity|]. split; [reflexivity|].
  exists Sample.pipeTable. split; [left; reflexivity|reflexivity].
Qed.

(** ** More on the detection rules *)

Section DetectionRules.

Variable tableHeadingRE : string -> option Match.

Lemma noLineAbove_true ed i :
  noLineAbove ed i = Normal true -> i = 0 \/ blankAt ed (i - 1).
Proof.
  unfold noLineAbove. destruct (i =? 0) eqn:E.
  - apply Nat.eqb_eq in E. auto.
  - destruct (Host.getLine ed (i - 1)) as [l|] eqn:G; [|discriminate].
    intros H. injection H as H. right. exists l. auto.
Qed.

Lemma headlessEnd_between ls : forall j k,
  headlessEnd tableHeadingRE ls j = Some k ->
  forall n, n <= k - j ->
    exists l, nth_error ls n = Some l /\ JsString.blank l = false.
Proof.
  induction ls as [|l ls IH]; intros j k H n Hn; simpl in H; [discriminate|].
  destruct (JsString.blank l) eqn:B; [discriminate|].
  destruct n as [|n]; [exists l; auto|].
  assert (Step : headlessEnd tableHeadingRE ls (S j) = Some k ->
                 exists l0, nth_error (l :: ls) (S n) = Some l0
                            /\ JsString.blank l0 = false).
  { intros H'. pose proof (headlessEnd_sound _ _ _ _ H') as (Hk & _).
    simpl. apply (IH (S j) k H'). lia. }
  destruct (tableHeadingRE l) as [m|]; [|auto].
  destruct (group1 m); [|auto].
  injection H as <-. lia.
Qed.

(** The four ways the detection fixes a span. *)
Lemma detectSpan_cases ed i s :
  detectSpan tableHeadingRE ed i = Found s ->
  exists m, execLine tableHeadingRE (Host.getLine ed i) = Some m
  /\ ((group1 m = true /\ nonBlankAt ed (i + 1) /\ noLineAbove ed i = Normal true
       /\ exists k, headlessEnd tableHeadingRE (skipn (i + 1) (lines ed)) (i + 1) = Some k
                    /\ s = mkSpan i k simple)
      \/ (group1 m = true /\ nonBlankAt ed (i + 1) /\ noLineAbove ed i = Normal false
          /\ exists j, blankFrom ed i = Some j /\ s = mkSpan (i - 1) (j - 1) simple)
      \/ (group1 m = false /\ group2 m = true
          /\ exists j, blankFrom ed (i + 1) = Some j /\ s = mkSpan i (j - 1) grid)
      \/ (group1 m = false /\ group2 m = false /\ group3 m = true
          /\ noLineAbove ed i = Normal false
          /\ exists j, blankFrom ed i = Some j /\ s = mkSpan (i - 1) (j - 1) pipe)).
Proof.
  unfold detectSpan.
  destruct (execLine tableHeadingRE (Host.getLine ed i)) as [m|]; [|discriminate].
  intros H. exists m. split; [reflexivity|].
  assert (Terminated : forall first start ty,
            spanCheck (Some first) (option_map (fun j => j - 1) (blankFrom ed start)) ty
            = Found s ->
            exists j, blankFrom ed start = Some j /\ s = mkSpan first (j - 1) ty).
  { intros first start ty Hs. apply spanCheck_found in Hs.
    destruct Hs as (f & l & Ef & El & _ & ->). injection Ef as <-.
    destruct (blankFrom ed start) as [j|]; [|discriminate].
    injection El as <-. eauto. }
  destruct (group1 m).
  - destruct (Host.getLine ed (i + 1)) as [nextLine|] eqn:G; [|discriminate].
    destruct (JsString.blank nextLine) eqn:B; [discriminate|].
    assert (N : nonBlankAt ed (i + 1)) by (exists nextLine; auto).
    destruct (noLineAbove ed i) as [[|]|]; [| |discriminate].
    + left. repeat split; auto. apply spanCheck_found in H.
      destruct H as (f & l & Ef & El & _ & ->). injection Ef as <-. eauto.
    + right. left. repeat split; auto.
  - destruct (group2 m).
    + right. right. left. repeat split; auto.
    + destruct (group3 m); [|discriminate].
      destruct (noLineAbove ed i) as [[|]|]; try discriminate.
      right. right. right. repeat split; auto.
Qed.

(** X1 -- every span the detection fixes has at least two lines, lies within
    the document, starts at the heading line or right above it, reaches the
    heading line, and all its lines other than the heading line are
    non-blank. *)
Theorem detected_span_shape ed i s :
  detectSpan tableHeadingRE ed i = Found s ->
  firstLine s < lastLine s
  /\ lastLine s < Host.lineCount ed
  /\ (firstLine s = i \/ (0 < i /\ firstLine s = i - 1))
  /\ i <= lastLine s
  /\ forall n, inside s n -> n <> i -> nonBlankAt ed n.
Proof.
  intros H. pose proof (detectSpan_bounds _ _ _ _ H) as (B1 & B2 & B3 & B4 & B5).
  do 4 (split; [lia|]).
  intros n (Hlo & Hhi) Hne.
  apply detectSpan_cases in H.
  destruct H as (m & _ & [C|[C|[C|C]]]).
  - destruct C as (_ & _ & _ & k & E & ->). simpl in *.
    destruct (headlessEnd_between _ _ _ E (n - (i + 1))) as (l & G & B); [lia|].
    rewrite nth_error_skipn in G. replace (i + 1 + (n - (i + 1))) with n in G by lia.
    exists l. auto.
  - destruct C as (_ & _ & A & j & E & ->). simpl in *.
    apply noLineAbove_false in A. destruct A as (Hi & A).
    apply blankFrom_sound in E. destruct E as ((_ & _ & Hb) & _).
    destruct (Nat.eq_dec n (i - 1)) as [->|]; [exact A|]. apply Hb. lia.
  - destruct C as (_ & _ & j & E & ->). simpl in *.
    apply blankFrom_sound in E. destruct E as ((_ & _ & Hb) & _). apply Hb. lia.
  - destruct C as (_ & _ & _ & A & j & E & ->). simpl in *.
    apply noLineAbove_false in A. destruct A as (Hi & A).
    apply blankFrom_sound in E. destruct E as ((_ & _ & Hb) & _).
    destruct (Nat.eq_dec n (i - 1)) as [->|]; [exact A|]. apply Hb. lia.
Qed.

(** X2 -- the dialect of a span is the first capture group of the heading
    match that holds text, in the order 1, 2, 3; a simple span that starts at
    the heading line ends on a line that matches alternative 1 again, and every
    other span is followed by a blank line. *)
Theorem detected_span_dialect ed i s :
  detectSpan tableHeadingRE ed i = Found s ->
  exists m,
    execLine tableHeadingRE (Host.getLine ed i) = Some m
    /\ match potentialTableType s with
       | simple => group1 m = true
       | grid => group1 m = false /\ group2 m = true /\ firstLine s = i
       | pipe => group1 m = false /\ group2 m = false /\ group3 m = true
                 /\ firstLine s = i - 1 /\ 0 < i
       end
    /\ (potentialTableType s = simple -> firstLine s = i ->
        alt1At tableHeadingRE ed (lastLine s))
    /\ (potentialTableType s <> simple \/ firstLine s < i ->
        blankAt ed (S (lastLine s))).
Proof.
  intros H. pose proof (detectSpan_bounds _ _ _ _ H) as (B1 & B2 & B3 & B4 & B5).
  apply detectSpan_cases in H. destruct H as (m & E & C). exists m. split; [exact E|].
  assert (After : forall start j first ty,
            blankFrom ed start = Some j -> first < j - 1 ->
            blankAt ed (S (lastLine (mkSpan first (j - 1) ty)))).
  { intros start j first ty Ej Hlt. apply blankFrom_sound in Ej.
    destruct Ej as ((_ & Hb & _) & _). simpl.
    replace (S (j - 1)) with j by lia. exact Hb. }
  destruct C as [C|[C|[C|C]]].
  - destruct C as (G1 & _ & _ & k & Ek & ->). simpl in *.
    split; [exact G1|]. split.
    + intros _ _. apply headlessEnd_sound in Ek.
      destruct Ek as (_ & _ & l & G & _ & M).
      rewrite nth_error_skipn in G. replace (i + 1 + (k - (i + 1))) with k in G by lia.
      exists l. auto.
    + intros [Hn|Hn]; [congruence|lia].
  - destruct C as (G1 & _ & A & j & Ej & ->). simpl in *.
    apply noLineAbove_false in A. destruct A as (Hi & _).
    split; [exact G1|]. split; [intros _ Hf; lia|].
    intros _. exact (After _ _ _ simple Ej B1).
  - destruct C as (G1 & G2 & j & Ej & ->). simpl in *.
    split; [auto|]. split; [discriminate|].
    intros _. exact (After _ _ _ grid Ej B1).
  - destruct C as (G1 & G2 & G3 & A & j & Ej & ->). simpl in *.
    apply noLineAbove_false in A. destruct A as (Hi & _).
    split; [auto|]. split; [discriminate|].
    intros _. exact (After _ _ _ pipe Ej B1).
Qed.

(** X3 -- a rule at line [i] that matches alternative 2 and not alternative 1
    gives the grid span from [i] to the line before the first blank line [k]
    below it; when the line right below the rule is blank, nothing is
    detected. *)
Theorem grid_rule_span ed i l m :
  Host.getLine ed i = Some l ->
  tableHeadingRE l = Some m ->
  group1 m = false -> group2 m = true ->
  (forall k, firstBlankAt ed (i + 1) k -> i + 1 < k ->
             detectSpan tableHeadingRE ed i = Found (mkSpan i (k - 1) grid))
  /\ (blankAt ed (i + 1) -> detectSpan tableHeadingRE ed i = NoTable).
Proof.
  intros G M G1 G2.
  assert (D : detectSpan tableHeadingRE ed i
              = spanCheck (Some i)
                  (option_map (fun j => j - 1) (blankFrom ed (i + 1))) grid).
  { unfold detectSpan, execLine. rewrite G, M, G1, G2. reflexivity. }
  split.
  - intros k Hk Hlt. rewrite D, (blankFrom_complete ed (i + 1) k Hk). simpl.
    destruct (i =? k - 1) eqn:E; [apply Nat.eqb_eq in E; lia|reflexivity].
  - intros Hb. rewrite D.
    rewrite (blankFrom_complete ed (i + 1) (i + 1)).
    + simpl. replace (i + 1 - 1) with i by lia. rewrite Nat.eqb_refl. reflexivity.
    + split; [lia|]. split; [exact Hb|]. intros n Hn. lia.
Qed.

Lemma blankFrom_none ed start :
  (forall n, start <= n -> n < Host.lineCount ed -> nonBlankAt ed n) ->
  blankFrom ed start = None.
Proof.
  intros H. destruct (blankFrom ed start) as [k|] eqn:E; [|reflexivity].
  apply blankFrom_sound in E. destruct E as ((Hle & (l & G & B) & _) & Hlt).
  destruct (H k Hle Hlt) as (l' & G' & B'). congruence.
Qed.

(** X4 -- a table that runs to the last line of the document, with no blank
    line after it, is not detected: a grid or pipe heading, or a simple
    heading with a non-blank line above it, finds no end when every line from
    the heading line on is non-blank. *)
Theorem unterminated_table_not_detected ed i l m :
  Host.getLine ed i = Some l ->
  tableHeadingRE l = Some m ->
  (forall n, i <= n -> n < Host.lineCount ed -> nonBlankAt ed n) ->
  group1 m = false \/ (0 < i /\ nonBlankAt ed (i - 1)) ->
  detectSpan tableHeadingRE ed i = NoTable.
Proof.
  intros G M Hall Hkind.
  assert (Hi : i < Host.lineCount ed).
  { unfold Host.lineCount. apply nth_error_Some. unfold Host.getLine in G. congruence. }
  assert (N0 : blankFrom ed i = None) by (apply blankFrom_none; exact Hall).
  assert (N1 : blankFrom ed (i + 1) = None).
  { apply blankFrom_none. intros n Hn. apply Hall. lia. }
  unfold detectSpan, execLine. rewrite G, M.
  destruct (group1 m) eqn:G1.
  - destruct Hkind as [Hk|(Hpos & Habove)]; [discriminate|].
    destruct (Host.getLine ed (i + 1)) as [nextLine|]; [|reflexivity].
    destruct (JsString.blank nextLine); [reflexivity|].
    rewrite (noLineAbove_headed ed i Hpos Habove), N0. reflexivity.
  - destruct (group2 m); [rewrite N1; reflexivity|].
    destruct (group3 m); [|reflexivity].
    destruct (noLineAbove_defined ed i Hi) as ([|] & A); rewrite A; [reflexivity|].
    rewrite N0. reflexivity.
Qed.

End DetectionRules.

(** ** More on the pass *)

Section PassRules.

Variable tableHeadingRE : string -> option Match.
Variable Table : Type.
Variable fromMarkdown : string -> dialect -> Table + string.

Lemma candidate_sameDoc a b i :
  sameDoc a b -> candidate tableHeadingRE a i = candidate tableHeadingRE b i.
Proof.
  intros (L & M & _ & _).
  unfold candidate, detectSpan, noLineAbove, blankFrom, Host.getLine.
  rewrite L, M. reflexivity.
Qed.

Lemma grabTable_sameDoc a b s : sameDoc a b -> grabTable a s = grabTable b s.
Proof.
  intros (L & _). unfold grabTable, Host.getLine. rewrite L. reflexivity.
Qed.

Lemma sameDoc_refl a : sameDoc a a.
Proof. repeat split. Qed.

Lemma sameDoc_trans a b c : sameDoc a b -> sameDoc b c -> sameDoc a c.
Proof.
  intros (A1 & A2 & A3 & A4) (B1 & B2 & B3 & B4).
  repeat split; congruence.
Qed.

Lemma iteration_sameDoc st i st' i' o :
  iteration tableHeadingRE fromMarkdown st i = (st', i', o) ->
  sameDoc (cm st) (cm st').
Proof.
  intros H. apply iteration_spec in H. destruct o as [|s r|s msg|s t m|].
  - destruct H as (-> & _). apply sameDoc_refl.
  - destruct H as (-> & _). apply sameDoc_refl.
  - destruct H as (-> & _). apply sameDoc_refl.
  - destruct H as (l & _ & _ & _ & -> & _). repeat split.
  - destruct H as (-> & _). apply sameDoc_refl.
Qed.

(** X5 -- a candidate span that the cursor is not in and that a live marked
    range overlaps is rejected: the turn ends in a [continue] with the state
    as it was. *)
Theorem marker_overlap_rejected st i s l mk :
  candidate tableHeadingRE (cm st) i = Found s ->
  ~ inside s (line (cursor (cm st))) ->
  Host.getLine (cm st) (lastLine s) = Some l ->
  In mk (marks (cm st)) ->
  Host.overlaps (mkPos (firstLine s) 0) (mkPos (lastLine s) (String.length l)) mk = true ->
  iteration tableHeadingRE fromMarkdown st i = (st, lastLine s, Rejected s MarkerPresent).
Proof.
  intros C Hcur G Hin Hov. unfold iteration. rewrite C, G.
  destruct ((firstLine s <=? line (cursor (cm st)))
            && (line (cursor (cm st)) <=? lastLine s)) eqn:E.
  - exfalso. apply Hcur. apply andb_true_iff in E. destruct E as (E1 & E2).
    apply Nat.leb_le in E1. apply Nat.leb_le in E2. split; assumption.
  - assert (F : In mk (Host.findMarks (cm st) (mkPos (firstLine s) 0)
                        (mkPos (lastLine s) (String.length l)))).
    { unfold Host.findMarks. apply filter_In. auto. }
    destruct (Host.findMarks (cm st) (mkPos (firstLine s) 0)
                (mkPos (lastLine s) (String.length l))); [destruct F|].
    reflexivity.
Qed.

(** What a turn that renders a table has checked. *)
Lemma rendered_turn st i st' i' s t m :
  iteration tableHeadingRE fromMarkdown st i = (st', i', Rendered s t m) ->
  candidate tableHeadingRE (cm st) i = Found s
  /\ ~ inside s (line (cursor (cm st)))
  /\ modeAt (cm st) (mkPos (firstLine s) 0) = markdownZkn
  /\ modeAt (cm st) (mkPos (lastLine s) 0) = markdownZkn
  /\ setextGuard s (grabTable (cm st) s) = false
  /\ fromMarkdown (joinTable (grabTable (cm st) s)) (potentialTableType s)
     = inl (widget t).
Proof.
  unfold iteration.
  destruct (candidate tableHeadingRE (cm st) i) as [|s0|] eqn:C; try discriminate.
  destruct ((firstLine s0 <=? line (cursor (cm st)))
            && (line (cursor (cm st)) <=? lastLine s0)) eqn:E; [discriminate|].
  destruct (Host.getLine (cm st) (lastLine s0)) as [l|]; [|discriminate].
  destruct (0 <? List.length (Host.findMarks (cm st) (mkPos (firstLine s0) 0)
                                (mkPos (lastLine s0) (String.length l))));
    [discriminate|].
  cbn [line].
  destruct (String.eqb (modeAt (cm st) (mkPos (firstLine s0) 0)) markdownZkn) eqn:M1;
    [|discriminate].
  destruct (String.eqb (modeAt (cm st) (mkPos (lastLine s0) 0)) markdownZkn) eqn:M2;
    [|discriminate].
  cbn [negb orb].
  destruct (setextGuard s0 (grabTable (cm st) s0)) eqn:Sx; [discriminate|].
  destruct (fromMarkdown (joinTable (grabTable (cm st) s0)) (potentialTableType s0))
    as [tbl|msg] eqn:F; [|discriminate].
  simpl. intros H. injection H as _ _ Es Et _. subst s0. rewrite <- Et. simpl.
  apply String.eqb_eq in M1. apply String.eqb_eq in M2.
  repeat split; auto.
  intros (A & B). apply Nat.leb_le in A. apply Nat.leb_le in B.
  rewrite A, B in E. discriminate.
Qed.

Lemma skipn_cons_nth {A} (l : list A) : forall n x,
  nth_error l n = Some x -> skipn n l = x :: skipn (S n) l.
Proof.
  induction l as [|y l IH]; intros [|n] x H; simpl in *; try discriminate.
  - injection H as ->. reflexivity.
  - apply IH. exact H.
Qed.

Lemma map_nth_error_seq {A} (l : list A) : forall n f,
  f + n <= List.length l ->
  map (nth_error l) (seq f n) = map Some (firstn n (skipn f l)).
Proof.
  induction n as [|n IH]; intros f H; [reflexivity|].
  destruct (nth_error l f) as [x|] eqn:E.
  - rewrite (skipn_cons_nth l f x E). simpl. rewrite E. f_equal. apply IH. lia.
  - apply nth_error_None in E. lia.
Qed.

(** The text the constructor gets is the lines of the span, joined. *)
Lemma joinTable_spanLines ed s :
  firstLine s <= lastLine s -> lastLine s < Host.lineCount ed ->
  joinTable (grabTable ed s) = JsString.join (spanLines ed s).
Proof.
  intros H1 H2. unfold joinTable, grabTable, spanLines, spanLength, Host.getLine.
  rewrite map_nth_error_seq by (unfold Host.lineCount in H2; lia).
  rewrite map_map. rewrite map_id. reflexivity.
Qed.

Lemma loop_rendered fuel : forall to st i final tr,
  loop tableHeadingRE fromMarkdown fuel to st i = Some (final, tr) ->
  forall k s t m, In (k, Rendered s t m) tr ->
    candidate tableHeadingRE (cm st) k = Found s
    /\ ~ inside s (line (cursor (cm st)))
    /\ modeAt (cm st) (mkPos (firstLine s) 0) = markdownZkn
    /\ modeAt (cm st) (mkPos (lastLine s) 0) = markdownZkn
    /\ setextGuard s (grabTable (cm st) s) = false
    /\ fromMarkdown (joinTable (grabTable (cm st) s)) (potentialTableType s)
       = inl (widget t).
Proof.
  induction fuel as [|fuel IH]; intros to st i final tr H k s t m Hin; [discriminate|].
  apply loop_step in H.
  destruct H as [(_ & _ & ->)|(Hi & st' & i' & o & It & H)]; [destruct Hin|].
  destruct H as [(-> & _ & ->)|(Ho & tr' & L & ->)].
  { destruct Hin as [E|[]]. discriminate. }
  destruct Hin as [E|Hin].
  - injection E as -> ->. exact (rendered_turn _ _ _ _ _ _ _ It).
  - pose proof (iteration_sameDoc _ _ _ _ _ It) as D.
    destruct (IH _ _ _ _ _ L k s t m Hin) as (C & Hc & M1 & M2 & Sx & F).
    rewrite <- (candidate_sameDoc _ _ k D) in C.
    rewrite <- (grabTable_sameDoc _ _ s D) in Sx, F.
    destruct D as (_ & DM & DC & _). rewrite <- DM in M1, M2. rewrite <- DC in Hc.
    repeat split; auto.
Qed.

(** X6 -- every table a pass renders comes from a span that the detection
    fixed at a line of the viewport in Markdown mode, that does not hold the
    cursor, whose first and last line start in Markdown mode, that the guard
    of line 303 let through, and the table is what the constructor returned
    for the lines of the span joined by newlines. *)
Theorem rendered_tables_are_checked st final tr k s t m :
  markdownRenderTables tableHeadingRE fromMarkdown st = Some (final, tr) ->
  In (k, Rendered s t m) tr ->
  fst (viewport (cm st)) <= k < snd (viewport (cm st))
  /\ modeAt (cm st) (mkPos k 0) = markdownZkn
  /\ detectSpan tableHeadingRE (cm st) k = Found s
  /\ ~ inside s (line (cursor (cm st)))
  /\ modeAt (cm st) (mkPos (firstLine s) 0) = markdownZkn
  /\ modeAt (cm st) (mkPos (lastLine s) 0) = markdownZkn
  /\ setextGuard s (grabTable (cm st) s) = false
  /\ fromMarkdown (JsString.join (spanLines (cm st) s)) (potentialTableType s)
     = inl (widget t).
Proof.
  intros H Hin.
  pose proof (tested_within_viewport _ _ _ _ _ _ H k _ Hin) as Hk.
  unfold markdownRenderTables in H. destruct (viewport (cm st)) as [from to].
  destruct (loop_rendered _ _ _ _ _ _ H k s t m Hin) as (C & Hc & M1 & M2 & Sx & F).
  apply candidate_found in C. destruct C as (M0 & D).
  pose proof (detectSpan_bounds _ _ _ _ D) as (B1 & _ & _ & _ & B5).
  rewrite joinTable_spanLines in F by lia.
  repeat split; auto; lia.
Qed.

Lemma state_eta (st : State Table) :
  st = mkState (mkEditor (lines (cm st)) (modeAt (cm st)) (cursor (cm st))
                         (viewport (cm st)) (marks (cm st) ++ []))
               (tables st ++ []) (console st ++ []) (allocated st + 0).
Proof.
  destruct st as [[ls md cu vp mk] tb co al]. simpl.
  rewrite !app_nil_r, Nat.add_0_r. reflexivity.
Qed.

Lemma loop_final_state fuel : forall to st i final tr,
  loop tableHeadingRE fromMarkdown fuel to st i = Some (final, tr) ->
  final = mkState
            (mkEditor (lines (cm st)) (modeAt (cm st)) (cursor (cm st))
                      (viewport (cm st))
                      (marks (cm st) ++ markersOf (lines (cm st)) tr))
            (tables st ++ instancesOf tr)
            (console st ++ errorsOf tr)
            (allocated st + List.length (instancesOf tr)).
Proof.
  induction fuel as [|fuel IH]; intros to st i final tr H; [discriminate|].
  apply loop_step in H.
  destruct H as [(_ & -> & ->)|(Hi & st' & i' & o & It & H)]; [apply state_eta|].
  pose proof (iteration_spec _ _ _ _ _ _ _ _ It) as Sp.
  destruct H as [(-> & -> & ->)|(Ho & tr' & L & ->)].
  { destruct Sp as (-> & _). apply state_eta. }
  specialize (IH _ _ _ _ _ L).
  destruct o as [|s r|s msg|s t m|].
  - destruct Sp as (-> & _). exact IH.
  - destruct Sp as (-> & _). exact IH.
  - destruct Sp as (-> & _). rewrite IH. simpl. rewrite <- app_assoc. reflexivity.
  - destruct Sp as (l & G & _ & _ & -> & _). rewrite IH. simpl.
    unfold Host.getLine in G. rewrite (nth_error_nth _ _ "" G).
    rewrite <- !app_assoc. simpl. f_equal. lia.
  - congruence.
Qed.

(** X7 -- what a pass leaves behind, read off its trace: the text, the modes,
    the cursor and the viewport are untouched; the marked ranges of before are
    all kept, followed by one live range per rendered table that covers the
    whole lines of its span and stands for that table; the registry of before
    is kept, followed by the rendered tables in order; the console gets one
    line per failed construction. *)
Theorem pass_final_state st final tr :
  markdownRenderTables tableHeadingRE fromMarkdown st = Some (final, tr) ->
  final = mkState
            (mkEditor (lines (cm st)) (modeAt (cm st)) (cursor (cm st))
                      (viewport (cm st))
                      (marks (cm st) ++ markersOf (lines (cm st)) tr))
            (tables st ++ instancesOf tr)
            (console st ++ errorsOf tr)
            (allocated st + List.length (instancesOf tr)).
Proof.
  unfold markdownRenderTables. destruct (viewport (cm st)) as [from to] eqn:V.
  intros H. rewrite <- V. exact (loop_final_state _ _ _ _ _ _ H).
Qed.

Lemma overlaps_incl a b from to :
  incl (marks a) (marks b) ->
  Host.findMarks b from to = [] -> Host.findMarks a from to = [].
Proof.
  intros Hincl Hb. unfold Host.findMarks in *.
  destruct (filter (Host.overlaps from to) (marks a)) as [|mk rest] eqn:E; [reflexivity|].
  assert (Hin : In mk (filter (Host.overlaps from to) (marks a)))
    by (rewrite E; left; reflexivity).
  apply filter_In in Hin. destruct Hin as (Hin & Hov).
  assert (Hin' : In mk (filter (Host.overlaps from to) (marks b)))
    by (apply filter_In; auto).
  rewrite Hb in Hin'. destruct Hin'.
Qed.

(** With more marked ranges, a turn that rendered nothing still renders
    nothing. *)
Lemma iteration_more_marks st1 st2 i st1' i1' o1 st2' i2' o2 :
  sameDoc (cm st1) (cm st2) ->
  incl (marks (cm st1)) (marks (cm st2)) ->
  iteration tableHeadingRE fromMarkdown st1 i = (st1', i1', o1) ->
  iteration tableHeadingRE fromMarkdown st2 i = (st2', i2', o2) ->
  ~ rendered o1 -> ~ rendered o2.
Proof.
  intros D Hincl I1 I2 Hn R. destruct o2 as [| | |s t m|]; try destruct R.
  destruct (rendered_turn _ _ _ _ _ _ _ I2) as (C & Hc & M1 & M2 & Sx & F).
  apply iteration_spec in I2. destruct I2 as (l & G & _ & _ & _ & _ & _ & (l' & G' & U)).
  assert (l' = l) by congruence. subst l'.
  rewrite <- (candidate_sameDoc _ _ i D) in C.
  rewrite <- (grabTable_sameDoc _ _ s D) in Sx, F.
  pose proof D as (DL & DM & DC & _). rewrite <- DM in M1, M2. rewrite <- DC in Hc.
  unfold Host.getLine in G. rewrite <- DL in G.
  apply (overlaps_incl _ _ _ _ Hincl) in U.
  apply Hn. revert I1. unfold iteration. rewrite C.
  destruct ((firstLine s <=? line (cursor (cm st1)))
            && (line (cursor (cm st1)) <=? lastLine s)) eqn:E.
  { exfalso. apply Hc. apply andb_true_iff in E. destruct E as (E1 & E2).
    apply Nat.leb_le in E1. apply Nat.leb_le in E2. split; assumption. }
  unfold Host.getLine. rewrite G, U. cbn [List.length Nat.ltb Nat.leb line].
  apply String.eqb_eq in M1. apply String.eqb_eq in M2. rewrite M1, M2.
  cbn [negb orb]. rewrite Sx, F. simpl.
  intros H. injection H as _ _ <-. exact I.
Qed.

Lemma loop_marks_incl fuel : forall to st i final tr,
  loop tableHeadingRE fromMarkdown fuel to st i = Some (final, tr) ->
  incl (marks (cm st)) (marks (cm final)).
Proof.
  intros to st i final tr H. rewrite (loop_final_state _ _ _ _ _ _ H). simpl.
  apply incl_appl. apply incl_refl.
Qed.

(** A marked range over the whole lines of a span meets the span. *)
Lemma span_meets_own_marker s l handle :
  firstLine s < lastLine s ->
  Host.overlaps (mkPos (firstLine s) 0) (mkPos (lastLine s) (String.length l))
    (mkMarker (mkPos (firstLine s) 0) (mkPos (lastLine s) (String.length l))
              handle false) = true.
Proof.
  intros H. unfold Host.overlaps, pos_ltb. simpl.
  apply Nat.ltb_lt in H. rewrite H. reflexivity.
Qed.

(** A pass over a state that already holds every marked range of an earlier
    pass over the same document renders nothing. *)
Lemma loop_again fuel1 : forall fuel2 to st1 st2 i final1 tr1,
  loop tableHeadingRE fromMarkdown fuel1 to st1 i = Some (final1, tr1) ->
  sameDoc (cm st1) (cm st2) ->
  incl (marks (cm st1)) (marks (cm st2)) ->
  incl (marks (cm final1)) (marks (cm st2)) ->
  to - i < fuel2 ->
  exists final2 tr2,
    loop tableHeadingRE fromMarkdown fuel2 to st2 i = Some (final2, tr2)
    /\ cm final2 = cm st2 /\ tables final2 = tables st2
    /\ map fst tr2 = map fst tr1
    /\ forall k o, In (k, o) tr2 -> ~ rendered o.
Proof.
  induction fuel1 as [|fuel1 IH];
    intros fuel2 to st1 st2 i final1 tr1 H D Hincl Hfin Hfuel; [discriminate|].
  destruct fuel2 as [|fuel2]; [lia|].
  apply loop_step in H.
  destruct H as [(Hge & -> & ->)|(Hi & st1' & i1' & o1 & I1 & H)].
  { exists st2, []. simpl. apply Nat.ltb_ge in Hge. rewrite Hge.
    repeat split; auto; intros k o []. }
  simpl. pose proof Hi as Hlt. apply Nat.ltb_lt in Hlt. rewrite Hlt.
  destruct (iteration tableHeadingRE fromMarkdown st2 i) as [[st2' i2'] o2] eqn:I2.
  pose proof (iteration_spec _ _ _ _ _ _ _ _ I1) as S1.
  pose proof (iteration_spec _ _ _ _ _ _ _ _ I2) as S2.
  pose proof (candidate_sameDoc _ _ i D) as CE.
  destruct H as [(-> & -> & ->)|(Ho & tr1' & L & ->)].
  { destruct S1 as (_ & C1). rewrite CE in C1.
    assert (o2 = Threw).
    { destruct o2 as [|s r|s msg|s t m|]; try reflexivity.
      - unfold iteration in I2. rewrite C1 in I2. discriminate.
      - destruct S2 as (_ & _ & C2 & _). congruence.
      - destruct S2 as (_ & _ & C2 & _). congruence.
      - destruct S2 as (l & _ & _ & _ & _ & _ & C2 & _). congruence. }
    subst o2. destruct S2 as (-> & _).
    exists st2, [(i, Threw)]. repeat split; auto.
    intros k o [E|[]]. injection E as _ <-. intros []. }
  assert (R2 : ~ rendered o2).
  { destruct o1 as [|s r|s msg|s t m|]; try congruence;
      try solve [apply (iteration_more_marks _ _ _ _ _ _ _ _ _ D Hincl I1 I2); intros []].
    intros R. destruct o2 as [| | |s2 t2 m2|]; try destruct R.
    destruct S1 as (l1 & G1 & _ & _ & E1 & _ & C1 & _).
    destruct S2 as (l2 & G2 & _ & _ & _ & _ & C2 & (l2' & G2' & U2)).
    rewrite CE in C1. assert (s2 = s) by congruence. subst s2.
    assert (l2' = l2) by congruence. subst l2'.
    assert (l2 = l1).
    { destruct D as (DL & _). unfold Host.getLine in *. rewrite DL in G1. congruence. }
    subst l2.
    apply candidate_found in C2. destruct C2 as (_ & C2).
    apply detectSpan_bounds in C2. destruct C2 as (B1 & _).
    assert (Hin : In (mkMarker (mkPos (firstLine s) 0)
                        (mkPos (lastLine s) (String.length l1)) (oid t) false)
                     (marks (cm st2))).
    { apply Hfin. apply (loop_marks_incl _ _ _ _ _ _ L). rewrite E1. simpl.
      apply in_or_app. right. left. reflexivity. }
    pose proof (filter_nil_false _ _ _ U2 Hin) as Hf.
    rewrite (span_meets_own_marker s l1 (oid t) B1) in Hf. discriminate. }
  assert (Same : i2' = i1' /\ o2 <> Threw /\ cm st2' = cm st2 /\ tables st2' = tables st2).
  { destruct o1 as [|s1 r1|s1 m1|s1 t1 k1|]; try congruence.
    - destruct S1 as (_ & ->).
      assert (C2 : candidate tableHeadingRE (cm st2) i = NoTable).
      { rewrite <- CE. unfold iteration in I1.
        destruct (candidate tableHeadingRE (cm st1) i) as [|s0|] eqn:C; try reflexivity.
        - exfalso. revert I1.
          destruct ((firstLine s0 <=? line (cursor (cm st1)))
                    && (line (cursor (cm st1)) <=? lastLine s0)); [discriminate|].
          destruct (Host.getLine (cm st1) (lastLine s0)); [|discriminate].
          destruct (0 <? _); [discriminate|].
          destruct (negb _ || negb _); [discriminate|].
          destruct (setextGuard _ _); [discriminate|].
          destruct (fromMarkdown _ _); discriminate.
        - discriminate. }
      unfold iteration in I2. rewrite C2 in I2. injection I2 as <- <- <-.
      repeat split; auto; discriminate.
    - destruct S1 as (_ & -> & C1 & _). rewrite CE in C1.
      destruct o2 as [|s r|s msg|s t m|].
      + unfold iteration in I2. rewrite C1 in I2. exfalso. revert I2.
        destruct ((firstLine s1 <=? line (cursor (cm st2)))
                  && (line (cursor (cm st2)) <=? lastLine s1)); [discriminate|].
        destruct (Host.getLine (cm st2) (lastLine s1)); [|discriminate].
        destruct (0 <? _); [discriminate|].
        destruct (negb _ || negb _); [discriminate|].
        destruct (setextGuard _ _); [discriminate|].
        destruct (fromMarkdown _ _); discriminate.
      + destruct S2 as (-> & -> & C2 & _). assert (s = s1) by congruence. subst s.
        repeat split; auto; discriminate.
      + destruct S2 as (-> & -> & C2 & _). assert (s = s1) by congruence. subst s.
        repeat split; auto; discriminate.
      + exfalso. apply R2. exact I.
      + destruct S2 as (_ & C2). congruence.
    - destruct S1 as (_ & -> & C1 & _). rewrite CE in C1.
      destruct o2 as [|s r|s msg|s t m|].
      + unfold iteration in I2. rewrite C1 in I2. exfalso. revert I2.
        destruct ((firstLine s1 <=? line (cursor (cm st2)))
                  && (line (cursor (cm st2)) <=? lastLine s1)); [discriminate|].
        destruct (Host.getLine (cm st2) (lastLine s1)); [|discriminate].
        destruct (0 <? _); [discriminate|].
        destruct (negb _ || negb _); [discriminate|].
        destruct (setextGuard _ _); [discriminate|].
        destruct (fromMarkdown _ _); discriminate.
      + destruct S2 as (-> & -> & C2 & _). assert (s = s1) by congruence. subst s.
        repeat split; auto; discriminate.
      + destruct S2 as (-> & -> & C2 & _). assert (s = s1) by congruence. subst s.
        repeat split; auto; discriminate.
      + exfalso. apply R2. exact I.
      + destruct S2 as (_ & C2). congruence.
    - destruct S1 as (l1 & _ & _ & _ & _ & -> & C1 & _). rewrite CE in C1.
      destruct o2 as [|s r|s msg|s t m|].
      + unfold iteration in I2. rewrite C1 in I2. exfalso. revert I2.
        destruct ((firstLine s1 <=? line (cursor (cm st2)))
                  && (line (cursor (cm st2)) <=? lastLine s1)); [discriminate|].
        destruct (Host.getLine (cm st2) (lastLine s1)); [|discriminate].
        destruct (0 <? _); [discriminate|].
        destruct (negb _ || negb _); [discriminate|].
        destruct (setextGuard _ _); [discriminate|].
        destruct (fromMarkdown _ _); discriminate.
      + destruct S2 as (-> & -> & C2 & _). assert (s = s1) by congruence. subst s.
        repeat split; auto; discriminate.
      + destruct S2 as (-> & -> & C2 & _). assert (s = s1) by congruence. subst s.
        repeat split; auto; discriminate.
      + exfalso. apply R2. exact I.
      + destruct S2 as (_ & C2). congruence. }
  destruct Same as (-> & Ho2 & Ecm & Etb).
  pose proof (iteration_sameDoc _ _ _ _ _ I1) as D1.
  destruct (iteration_frame _ _ _ _ _ _ _ _ I1) as (_ & extra & Hmarks).
  destruct (IH fuel2 to st1' st2' (S i1') final1 tr1' L) as (final2 & tr2 & L2 & A & B & Cx & Dx).
  - rewrite Ecm. destruct D1 as (A1 & A2 & A3 & A4). destruct D as (B1 & B2 & B3 & B4).
    repeat split; congruence.
  - rewrite Ecm. apply (incl_tran (loop_marks_incl _ _ _ _ _ _ L)). exact Hfin.
  - rewrite Ecm. exact Hfin.
  - pose proof (iteration_advance _ _ _ _ _ _ _ _ I1 Ho). lia.
  - rewrite L2. exists final2, ((i, o2) :: tr2).
    split; [destruct o2; try reflexivity; congruence|].
    split; [congruence|]. split; [congruence|].
    split; [simpl; f_equal; exact Cx|].
    intros k o [E|Hin]; [injection E as _ <-; exact R2|exact (Dx k o Hin)].
Qed.

(** X8 -- a second pass over the state a pass left renders nothing: it ends
    with the same editor (text and marked ranges) and the same registry, and
    it visits the same line indices. *)
Theorem second_pass_renders_nothing st final tr :
  markdownRenderTables tableHeadingRE fromMarkdown st = Some (final, tr) ->
  exists final2 tr2,
    markdownRenderTables tableHeadingRE fromMarkdown final = Some (final2, tr2)
    /\ cm final2 = cm final /\ tables final2 = tables final
    /\ map fst tr2 = map fst tr
    /\ forall k o, In (k, o) tr2 -> ~ rendered o.
Proof.
  intros H. pose proof (pass_final_state _ _ _ H) as F.
  unfold markdownRenderTables in *.
  destruct (viewport (cm st)) as [from to] eqn:V.
  assert (V2 : viewport (cm final) = (from, to)) by (rewrite F; reflexivity).
  rewrite V2.
  apply (loop_again _ _ _ _ _ _ _ _ H).
  - rewrite F. repeat split. exact V.
  - apply (loop_marks_incl _ _ _ _ _ _ H).
  - apply incl_refl.
  - lia.
Qed.

End PassRules.

(** ** More on strings and the text of the document *)

Section Text.

Lemma append_empty_r s : (s ++ "")%string = s.
Proof. induction s as [|c s IH]; simpl; [reflexivity|rewrite IH; reflexivity]. Qed.

Lemma length_append s t :
  String.length (s ++ t)%string = String.length s + String.length t.
Proof. induction s as [|c s IH]; simpl; [reflexivity|rewrite IH; reflexivity]. Qed.

Lemma substring_prefix s t : String.substring 0 (String.length s) (s ++ t)%string = s.
Proof.
  induction s as [|c s IH]; simpl.
  - destruct t; reflexivity.
  - rewrite IH. reflexivity.
Qed.

Lemma substring_none n s : String.substring n 0 s = "".
Proof.
  revert s. induction n as [|n IH]; intros s.
  - destruct s; reflexivity.
  - destruct s as [|c s]; simpl; [reflexivity|apply IH].
Qed.

Lemma substring_rest s : String.substring (String.length s) (String.length s - String.length s) s = "".
Proof. rewrite Nat.sub_diag. apply substring_none. Qed.

(** Dropping the last character of a text that ends in a newline. *)
Lemma dropLast_newline s : JsString.dropLast (s ++ JsString.newline)%string = s.
Proof.
  unfold JsString.dropLast. rewrite length_append. simpl.
  replace (String.length s + 1 - 1) with (String.length s) by lia.
  apply substring_prefix.
Qed.

Lemma split_nonempty s : JsString.split s <> [].
Proof.
  destruct s as [|c s]; simpl; [discriminate|].
  destruct (Ascii.eqb c "010"%char); [discriminate|].
  destruct (JsString.split s); discriminate.
Qed.

Lemma split_line s : hasNewline s = false -> JsString.split s = [s].
Proof.
  induction s as [|c s IH]; simpl; [reflexivity|].
  destruct (Ascii.eqb c "010"%char); [discriminate|]. simpl.
  intros H. rewrite (IH H). reflexivity.
Qed.

Lemma split_append s rest :
  hasNewline s = false ->
  JsString.split (s ++ JsString.newline ++ rest)%string = s :: JsString.split rest.
Proof.
  unfold JsString.newline. induction s as [|c s IH]; simpl in *; [reflexivity|].
  destruct (Ascii.eqb c "010"%char); [discriminate|]. simpl.
  intros H. rewrite (IH H). reflexivity.
Qed.

(** Splitting at newlines undoes joining with newlines. *)
Lemma split_join ls :
  ls <> [] -> Forall (fun l => hasNewline l = false) ls ->
  JsString.split (JsString.join ls) = ls.
Proof.
  induction ls as [|x ls IH]; intros Hne Hall; [congruence|].
  inversion Hall as [|? ? Hx Hls]; subst.
  destruct ls as [|y ls].
  - simpl. apply split_line. exact Hx.
  - unfold JsString.join in *.
    change (String.concat JsString.newline (x :: y :: ls))
      with (x ++ JsString.newline ++ String.concat JsString.newline (y :: ls))%string.
    rewrite (split_append _ _ Hx). f_equal. apply IH; [discriminate|exact Hls].
Qed.

Lemma weld_whole text : text <> [] -> Host.weld "" text "" = text.
Proof.
  destruct text as [|t rest]; [congruence|]. intros _.
  destruct rest as [|r rest]; simpl.
  - rewrite append_empty_r. reflexivity.
  - rewrite append_empty_r. f_equal.
    change (match rest with [] => [] | _ :: _ => r :: removelast rest end)
      with (removelast (r :: rest)).
    change (match rest with [] => r | _ :: _ => last rest "" end)
      with (last (r :: rest) "").
    symmetry. apply app_removelast_last. discriminate.
Qed.

Lemma firstn_skipn_middle {A} (pre : list A) x post :
  firstn (List.length pre) (pre ++ x :: post)
  ++ skipn (S (List.length pre)) (pre ++ x :: post) = pre ++ post.
Proof.
  induction pre as [|y pre IH]; [reflexivity|].
  cbn [List.length firstn app]. rewrite skipn_cons. simpl. f_equal. exact IH.
Qed.

Lemma in_firstn {A} n (l : list A) x : In x (firstn n l) -> In x l.
Proof.
  intros H. rewrite <- (firstn_skipn n l). apply in_or_app. left. exact H.
Qed.

Lemma in_skipn {A} n (l : list A) x : In x (skipn n l) -> In x l.
Proof.
  intros H. rewrite <- (firstn_skipn n l). apply in_or_app. right. exact H.
Qed.

(** Cutting the lines [first] to [last] out of a list and putting them back. *)
Lemma cut_and_paste {A} (ls : list A) first last :
  first <= last ->
  firstn first ls ++ firstn (S last - first) (skipn first ls) ++ skipn (S last) ls = ls.
Proof.
  intros H.
  replace (skipn (S last) ls) with (skipn (S last - first) (skipn first ls)).
  - rewrite firstn_skipn. apply firstn_skipn.
  - rewrite skipn_skipn. f_equal. lia.
Qed.

End Text.

(** ** More on the write-back reaction *)

Section WriteBackRules.

Variable tableHeadingRE : string -> option Match.
Variable Table : Type.
Variable fromMarkdown : string -> dialect -> Table + string.
Variable getMarkdownTable : Table -> string.

Lemma coversLines_live ed m first last :
  coversLines ed m first last -> liveMarker ed m.
Proof. intros (mk & l & G & L & _). exists mk. auto. Qed.

(** The text after the reaction, for a marked range over whole lines. *)
Lemma onBlur_text whenGone st t m first last :
  coversLines (cm st) m first last ->
  exists st',
    onBlur getMarkdownTable whenGone (Some m) t st = Normal st'
    /\ lines (cm st')
       = firstn first (lines (cm st))
         ++ JsString.split (JsString.dropLast (getMarkdownTable (widget t)))
         ++ skipn (S last) (lines (cm st))
    /\ console st' = console st /\ allocated st' = allocated st
    /\ clearedMarker (cm st') m.
Proof.
  intros (mk & l & G & L & Gl & Ef & Et). unfold onBlur, find. rewrite G, L.
  eexists. split; [reflexivity|]. simpl.
  rewrite Ef, Et. simpl.
  unfold Host.getLine in Gl. rewrite (nth_error_nth _ _ "" Gl).
  rewrite substring_rest.
  assert (P : String.substring 0 0 (nth first (lines (cm st)) "") = "")
    by apply substring_none.
  rewrite P, weld_whole by apply split_nonempty.
  repeat split.
  unfold clearedMarker. simpl.
  assert (U : forall (ms : list TextMarker) n x,
              nth_error ms n = Some x ->
              nth_error (Host.updateAt Host.clearMarker n ms) n
              = Some (Host.clearMarker x)).
  { induction ms as [|y ms IH]; intros [|n] x H; simpl in *; try discriminate.
    - injection H as ->. reflexivity.
    - apply IH. exact H. }
  exists (Host.clearMarker mk). split; [apply U; exact G|reflexivity].
Qed.

(** X9 -- the reaction replaces the bound lines and nothing else: with a live
    marked range over the whole lines [first] to [last], the lines above and
    below stay as they are, the lines in between become the serialised table
    without its last character, split at newlines, and the marked range is
    cleared. *)
Theorem write_back_replaces_bound_lines whenGone st t m first last :
  coversLines (cm st) m first last ->
  exists st',
    onBlur getMarkdownTable whenGone (Some m) t st = Normal st'
    /\ lines (cm st')
       = firstn first (lines (cm st))
         ++ JsString.split (JsString.dropLast (getMarkdownTable (widget t)))
         ++ skipn (S last) (lines (cm st))
    /\ console st' = console st
    /\ clearedMarker (cm st') m.
Proof.
  intros H. destruct (onBlur_text whenGone st t m first last H)
    as (st' & E & Ls & Co & _ & Cl).
  exists st'. auto.
Qed.

(** The marked range a rendering turn makes covers the lines of its span. *)
Lemma rendered_covers st i st' i' s t m :
  iteration tableHeadingRE fromMarkdown st i = (st', i', Rendered s t m) ->
  coversLines (cm st') m (firstLine s) (lastLine s)
  /\ lines (cm st') = lines (cm st)
  /\ firstLine s < lastLine s /\ lastLine s < Host.lineCount (cm st).
Proof.
  intros H. apply iteration_spec in H.
  destruct H as (l & G & _ & -> & -> & _ & C & _). simpl.
  apply candidate_found in C. destruct C as (_ & C).
  apply detectSpan_bounds in C. destruct C as (B1 & _ & _ & _ & B5).
  repeat split; auto.
  exists (mkMarker (mkPos (firstLine s) 0) (mkPos (lastLine s) (String.length l))
                   (oid t) false), l.
  simpl. rewrite nth_error_app2 by lia. rewrite Nat.sub_diag. simpl.
  repeat split; auto.
Qed.

(** X10 -- round trip: when the serialiser gives back the text the table was
    made from, followed by one newline, the reaction that fires right after
    the rendering turn leaves every line of the document as it was before the
    turn. *)
Theorem write_back_round_trip whenGone st i st' i' s t m :
  iteration tableHeadingRE fromMarkdown st i = (st', i', Rendered s t m) ->
  Forall (fun l => hasNewline l = false) (lines (cm st)) ->
  getMarkdownTable (widget t)
  = (JsString.join (spanLines (cm st) s) ++ JsString.newline)%string ->
  exists st'',
    onBlur getMarkdownTable whenGone (Some m) t st' = Normal st''
    /\ lines (cm st'') = lines (cm st).
Proof.
  intros It Hnl Hser.
  destruct (rendered_covers _ _ _ _ _ _ _ It) as (Cov & Ls & B1 & B5).
  destruct (onBlur_text whenGone st' t m _ _ Cov) as (st'' & E & Lt & _).
  exists st''. split; [exact E|].
  rewrite Lt, Ls, Hser, dropLast_newline.
  unfold Host.lineCount in B5.
  assert (Hspan : spanLines (cm st) s <> []).
  { unfold spanLines, spanLength.
    destruct (nth_error (lines (cm st)) (firstLine s)) as [x|] eqn:Nx.
    - rewrite (skipn_cons_nth _ _ _ Nx).
      replace (S (lastLine s) - firstLine s) with (S (lastLine s - firstLine s)) by lia.
      discriminate.
    - apply nth_error_None in Nx. lia. }
  rewrite split_join.
  - unfold spanLines, spanLength. apply cut_and_paste. lia.
  - exact Hspan.
  - unfold spanLines. apply Forall_forall. intros x Hx.
    apply in_firstn, in_skipn in Hx. revert x Hx. apply Forall_forall. exact Hnl.
Qed.

(** X11 -- the reaction writes through a marked range once: after it ran on
    a live range it has cleared it, and a later firing of the same closure
    leaves the state as it is.  On CodeMirror, whose [find()] returns
    [undefined] for the cleared marker, that firing gets past the guard of
    line 318 and throws at the destructuring of line 330; on a host that
    answers [false] it returns at once. *)
Theorem write_back_second_firing whenGone st t t' m :
  liveMarker (cm st) m ->
  exists st',
    onBlur getMarkdownTable whenGone (Some m) t st = Normal st'
    /\ clearedMarker (cm st') m
    /\ onBlur getMarkdownTable whenGone (Some m) t' st'
       = match whenGone with
         | GoneFalse => Normal st'
         | GoneUndefined => Throw "TypeError"
         end.
Proof.
  intros H. destruct (onBlur_live Table getMarkdownTable whenGone st t m H)
    as (st' & E & _ & C).
  exists st'. split; [exact E|]. split; [exact C|].
  destruct C as (mk & G & L). unfold onBlur, find. rewrite G, L.
  destruct whenGone; reflexivity.
Qed.

(** X12 -- an instance that stands in the registry at an index other than 0,
    under an identity no other entry has, is taken out by the reaction, and
    every other entry stays, in order. *)
Theorem write_back_removes_registered whenGone st t m pre x post :
  liveMarker (cm st) m ->
  tables st = pre ++ x :: post -> pre <> [] -> oid x = oid t ->
  (forall y, In y pre \/ In y post -> oid y <> oid t) ->
  exists st',
    onBlur getMarkdownTable whenGone (Some m) t st = Normal st'
    /\ tables st' = pre ++ post
    /\ ~ registered (tables st') t.
Proof.
  intros Hlive Ht Hpre Hx Hother.
  destruct (write_back_removes_later Table getMarkdownTable whenGone st t m pre x post
              Hlive Ht Hpre (fun y Hy => Hother y (or_introl Hy)) Hx)
    as (st' & E & T).
  exists st'. split; [exact E|]. split; [exact T|].
  intros (y & Hin & Hy). rewrite T in Hin. apply in_app_or in Hin.
  exact (Hother y Hin Hy).
Qed.

Lemma indexOfFrom_absent (l : list (Instance Table)) t : forall k,
  (forall y, In y l -> oid y <> oid t) -> indexOfFrom l t k = (-1)%Z.
Proof.
  induction l as [|y l IH]; intros k H; simpl; [reflexivity|].
  destruct (oid y =? oid t) eqn:E.
  - apply Nat.eqb_eq in E. exfalso. apply (H y); [left; reflexivity|exact E].
  - apply IH. intros z Hz. apply H. right. exact Hz.
Qed.

(** X13 -- when the table object is not in the registry, [indexOf] is -1, the
    test [if (found)] lets it through and [splice(-1, 1)] takes out the last
    entry of the registry, which is another table. *)
Theorem write_back_unregistered_drops_last whenGone st t m init z :
  liveMarker (cm st) m ->
  tables st = init ++ [z] ->
  (forall y, In y (tables st) -> oid y <> oid t) ->
  exists st',
    onBlur getMarkdownTable whenGone (Some m) t st = Normal st'
    /\ tables st' = init.
Proof.
  intros Hlive Ht Habsent.
  destruct (onBlur_live Table getMarkdownTable whenGone st t m Hlive) as (st' & E & T & _).
  exists st'. split; [exact E|]. rewrite T. unfold indexOf.
  rewrite (indexOfFrom_absent _ t 0%Z Habsent). simpl.
  rewrite Ht. unfold splice1.
  change ((-1 <? 0)%Z) with true. cbv iota.
  rewrite length_app. cbn [List.length].
  replace (Z.max (Z.of_nat (List.length init + 1) + -1) 0)
    with (Z.of_nat (List.length init)) by lia.
  rewrite Nat2Z.id. rewrite firstn_skipn_middle. apply app_nil_r.
Qed.

End WriteBackRules.

(** ** The command that inserts a table *)

Section InsertTable.

Variable tableHeadingRE : string -> option Match.

Lemma split_tableTemplate : JsString.split tableTemplate = ["| | |"; "| | |"; ""].
Proof. reflexivity. Qed.

(** The lines and the cursor after the command, for an empty selection at the
    cursor. *)
Lemma inserted_lines ed ln :
  Host.getLine ed (line (cursor ed)) = Some ln ->
  lines (markdownInsertTable ed (cursor ed))
  = firstn (line (cursor ed)) (lines ed)
    ++ [(String.substring 0 (ch (cursor ed)) ln ++ "| | |")%string; "| | |";
        String.substring (ch (cursor ed)) (String.length ln - ch (cursor ed)) ln]
    ++ skipn (S (line (cursor ed))) (lines ed)
  /\ cursor (markdownInsertTable ed (cursor ed)) = mkPos (line (cursor ed) + 2) 0.
Proof.
  intros G.
  unfold markdownInsertTable, replaceSelection, Host.replaceRange.
  rewrite split_tableTemplate. cbn [lines cursor marks Host.weld removelast last].
  unfold Host.getLine in G. rewrite (nth_error_nth _ _ "" G).
  split; reflexivity.
Qed.

(** X15 -- a table put in on an empty line is a pipe table to the detection
    at its second row: when the heading pattern takes the row [| | |] as
    alternative 3 only, the detection at that row fixes the span of the two
    rows, and the cursor the command leaves is below that span.  (This is the
    detection at that one line: a pass that tests the first row before it, with
    a non-blank line above, fixes a longer span there.) *)
Theorem inserted_table_is_detected ed m :
  Host.getLine ed (line (cursor ed)) = Some "" ->
  tableHeadingRE "| | |" = Some m ->
  group1 m = false -> group2 m = false -> group3 m = true ->
  let n := line (cursor ed) in
  let ed' := markdownInsertTable ed (cursor ed) in
  detectSpan tableHeadingRE ed' (n + 1) = Found (mkSpan n (n + 1) pipe)
  /\ ~ inside (mkSpan n (n + 1) pipe) (line (cursor ed')).
Proof.
  intros G M G1 G2 G3 n ed'.
  destruct (inserted_lines ed "" G) as (L & C).
  fold n in L, C. fold ed' in L, C.
  assert (Sub : forall a b, String.substring a b "" = "")
    by (intros [|a] [|b]; reflexivity).
  rewrite !Sub in L. cbn [append] in L.
  assert (Hn : List.length (firstn n (lines ed)) = n).
  { rewrite length_firstn. apply Nat.min_l.
    assert (n < List.length (lines ed)); [|lia].
    apply nth_error_Some. unfold Host.getLine in G. fold n in G. congruence. }
  assert (Row : forall k x, nth_error ["| | |"; "| | |"; ""] k = Some x ->
                Host.getLine ed' (n + k) = Some x).
  { intros k x Hk. unfold Host.getLine. rewrite L.
    rewrite nth_error_app2 by lia. rewrite Hn.
    replace (n + k - n) with k by lia.
    assert (Hk3 : k < List.length ["| | |"; "| | |"; ""])
      by (apply nth_error_Some; congruence).
    simpl in Hk3.
    rewrite nth_error_app1 by (simpl; lia). exact Hk. }
  assert (R0 : Host.getLine ed' n = Some "| | |").
  { replace n with (n + 0) at 1 by lia. apply Row. reflexivity. }
  assert (R1 : Host.getLine ed' (n + 1) = Some "| | |") by (apply Row; reflexivity).
  assert (R2 : Host.getLine ed' (n + 2) = Some "") by (apply Row; reflexivity).
  split.
  - unfold detectSpan, execLine. rewrite R1, M, G1, G2, G3.
    rewrite (noLineAbove_headed ed' (n + 1)).
    + rewrite (blankFrom_complete ed' (n + 1) (n + 2)).
      * simpl. replace (n + 1 - 1) with n by lia. replace (n + 2 - 1) with (n + 1) by lia.
        destruct (n =? n + 1) eqn:E; [apply Nat.eqb_eq in E; lia|reflexivity].
      * split; [lia|]. split.
        -- exists "". split; [exact R2|reflexivity].
        -- intros k Hk. assert (k = n + 1) by lia. subst k.
           exists "| | |". split; [exact R1|reflexivity].
    + lia.
    + replace (n + 1 - 1) with n by lia. exists "| | |". split; [exact R0|reflexivity].
  - rewrite C. unfold inside. simpl. lia.
Qed.

End InsertTable.

(** ** The editor pane component *)

Section PaneComponent.

Variable Number : Type.
Variable numberToString : Number -> string.

Lemma find_first {A} (f : A -> bool) pre x post :
  (forall y, In y pre -> f y = false) -> f x = true ->
  List.find f (pre ++ x :: post) = Some x.
Proof.
  induction pre as [|y pre IH]; intros Hpre Hx; simpl.
  - rewrite Hx. reflexivity.
  - rewrite (Hpre y (or_introl eq_refl)). apply IH; [|exact Hx].
    intros z Hz. apply Hpre. right. exact Hz.
Qed.

Lemma find_absent {A} (f : A -> bool) l :
  (forall y, In y l -> f y = false) -> List.find f l = None.
Proof.
  induction l as [|y l IH]; intros H; simpl; [reflexivity|].
  rewrite (H y (or_introl eq_refl)). apply IH. intros z Hz. apply H. right. exact Hz.
Qed.

(** X16 -- a pane whose leaf id is not in the pane data has no node, no active
    file and no open files, and shows the document tabs and the empty pane
    only. *)
Theorem missing_leaf_shows_empty_pane
  (props : EditorPane.Props Number) (store : EditorPane.StoreState) :
  (forall leaf, In leaf (EditorPane.paneData store) ->
                EditorPane.id leaf <> EditorPane.leafId Number props) ->
  EditorPane.computedNode Number props store = None
  /\ EditorPane.computedActiveFile Number props store = None
  /\ EditorPane.computedOpenFiles Number props store = []
  /\ EditorPane.computedHasNoOpenFiles Number props store = true
  /\ EditorPane.renderChildren Number props store
     = [EditorPane.DocumentTabs (EditorPane.leafId Number props)
                                (EditorPane.windowId Number props);
        EditorPane.EmptyPane].
Proof.
  intros H.
  assert (N : EditorPane.computedNode Number props store = None).
  { unfold EditorPane.computedNode. apply find_absent.
    intros y Hy. apply String.eqb_neq. exact (H y Hy). }
  unfold EditorPane.renderChildren, EditorPane.computedHasNoOpenFiles,
    EditorPane.computedOpenFiles, EditorPane.computedActiveFile.
  rewrite N. repeat split.
Qed.

(** X17 -- the node of a pane is the first leaf of the pane data that has the
    pane's id, whatever comes after it; the active file and the open files are
    those of that leaf. *)
Theorem node_is_first_leaf_with_id
  (props : EditorPane.Props Number) (store : EditorPane.StoreState) pre leaf post :
  EditorPane.paneData store = pre ++ leaf :: post ->
  (forall other, In other pre ->
                 EditorPane.id other <> EditorPane.leafId Number props) ->
  EditorPane.id leaf = EditorPane.leafId Number props ->
  EditorPane.computedNode Number props store = Some leaf
  /\ EditorPane.computedActiveFile Number props store = EditorPane.activeFile leaf
  /\ EditorPane.computedOpenFiles Number props store = EditorPane.openFiles leaf.
Proof.
  intros Hd Hpre Hid.
  assert (N : EditorPane.computedNode Number props store = Some leaf).
  { unfold EditorPane.computedNode. rewrite Hd. apply find_first.
    - intros y Hy. apply String.eqb_neq. exact (Hpre y Hy).
    - apply String.eqb_eq. exact Hid. }
  unfold EditorPane.computedActiveFile, EditorPane.computedOpenFiles.
  rewrite N. repeat split.
Qed.

Lemma filter_shown_map active (files : list EditorPane.OpenDocument) :
  filter EditorPane.isShownEditor
         (map (fun file => EditorPane.MainEditor (EditorPane.path file)
                             (EditorPane.isActive active file) file) files)
  = map (fun file => EditorPane.MainEditor (EditorPane.path file) true file)
        (filter (EditorPane.isActive active) files).
Proof.
  induction files as [|f files IH]; simpl; [reflexivity|].
  destruct (EditorPane.isActive active f) eqn:E; simpl; rewrite IH; reflexivity.
Qed.

Lemma active_at_most_once active (files : list EditorPane.OpenDocument) :
  NoDup (map EditorPane.path files) ->
  List.length (filter (EditorPane.isActive active) files) <= 1.
Proof.
  assert (P : forall f g, EditorPane.isActive active f = true ->
                          EditorPane.isActive active g = true ->
                          EditorPane.path f = EditorPane.path g).
  { intros f g. unfold EditorPane.isActive. destruct active as [a|]; [|discriminate].
    intros Hf Hg. apply String.eqb_eq in Hf. apply String.eqb_eq in Hg. congruence. }
  induction files as [|f files IH]; intros Hnd; simpl; [lia|].
  inversion Hnd as [|? ? Hnotin Hnd']; subst.
  destruct (EditorPane.isActive active f) eqn:E; [|apply IH; exact Hnd'].
  assert (Z : filter (EditorPane.isActive active) files = []).
  { destruct (filter (EditorPane.isActive active) files) as [|g rest] eqn:F;
      [reflexivity|].
    assert (Hg : In g (filter (EditorPane.isActive active) files))
      by (rewrite F; left; reflexivity).
    apply filter_In in Hg. destruct Hg as (Hg & Eg).
    exfalso. apply Hnotin. rewrite (P f g E Eg). apply in_map. exact Hg. }
  rewrite Z. simpl. lia.
Qed.

(** X18 -- the empty pane is shown exactly when no editor is rendered, and
    among the editors of open files with pairwise different paths at most one
    is shown: the one of the active file. *)
Theorem pane_shows_one_editor_or_empty_pane
  (props : EditorPane.Props Number) (store : EditorPane.StoreState) :
  let children := EditorPane.renderChildren Number props store in
  (In EditorPane.EmptyPane children <-> filter EditorPane.isEditor children = [])
  /\ List.length (filter EditorPane.isEditor children)
     = List.length (EditorPane.computedOpenFiles Number props store)
  /\ (EditorPane.computedActiveFile Number props store = None ->
      filter EditorPane.isShownEditor children = [])
  /\ (NoDup (map EditorPane.path (EditorPane.computedOpenFiles Number props store)) ->
      List.length (filter EditorPane.isShownEditor children) <= 1).
Proof.
  intros children. subst children.
  unfold EditorPane.renderChildren, EditorPane.computedHasNoOpenFiles.
  set (files := EditorPane.computedOpenFiles Number props store).
  set (active := EditorPane.computedActiveFile Number props store).
  assert (Ed : forall tail,
            (forall c, In c tail -> EditorPane.isEditor c = false) ->
            filter EditorPane.isEditor
              (map (fun file => EditorPane.MainEditor (EditorPane.path file)
                                  (EditorPane.isActive active file) file) files ++ tail)
            = map (fun file => EditorPane.MainEditor (EditorPane.path file)
                                 (EditorPane.isActive active file) file) files).
  { intros tail Ht. rewrite filter_app.
    replace (filter EditorPane.isEditor tail) with (@nil EditorPane.child).
    - rewrite app_nil_r. induction files as [|f fs IH]; simpl; [reflexivity|].
      rewrite IH. reflexivity.
    - symmetry. induction tail as [|c tail IH]; simpl; [reflexivity|].
      rewrite (Ht c (or_introl eq_refl)). apply IH.
      intros d Hd. apply Ht. right. exact Hd. }
  assert (Sh : forall tail,
            (forall c, In c tail -> EditorPane.isShownEditor c = false) ->
            filter EditorPane.isShownEditor
              (map (fun file => EditorPane.MainEditor (EditorPane.path file)
                                  (EditorPane.isActive active file) file) files ++ tail)
            = map (fun file => EditorPane.MainEditor (EditorPane.path file) true file)
                  (filter (EditorPane.isActive active) files)).
  { intros tail Ht. rewrite filter_app, filter_shown_map.
    replace (filter EditorPane.isShownEditor tail) with (@nil EditorPane.child).
    - apply app_nil_r.
    - symmetry. induction tail as [|c tail IH]; simpl; [reflexivity|].
      rewrite (Ht c (or_introl eq_refl)). apply IH.
      intros d Hd. apply Ht. right. exact Hd. }
  assert (Tail : forall c, In c (if List.length files =? 0
                                 then [EditorPane.EmptyPane] else []) ->
                 EditorPane.isEditor c = false /\ EditorPane.isShownEditor c = false).
  { intros c Hc. destruct (List.length files =? 0).
    - destruct Hc as [<-|[]]. split; reflexivity.
    - destruct Hc. }
  cbn [filter EditorPane.isEditor EditorPane.isShownEditor].
  rewrite (Ed _ (fun c Hc => proj1 (Tail c Hc))).
  rewrite (Sh _ (fun c Hc => proj2 (Tail c Hc))).
  split; [|split; [|split]].
  - split.
    + intros [H|H]; [discriminate|]. apply in_app_or in H. destruct H as [H|H].
      * apply in_map_iff in H. destruct H as (f & E & _). discriminate.
      * destruct files as [|f fs]; [reflexivity|]. destruct H.
    + intros H. right. apply in_or_app. right.
      destruct files as [|f fs]; [left; reflexivity|discriminate].
  - apply length_map.
  - intros Hn. fold active in Hn. rewrite Hn.
    assert (Z : forall fs : list EditorPane.OpenDocument,
              filter (EditorPane.isActive None) fs = [])
      by (induction fs as [|f fs IH]; simpl; [reflexivity|exact IH]).
    rewrite Z. reflexivity.
  - intros Hnd. rewrite length_map. apply active_at_most_once. exact Hnd.
Qed.

End PaneComponent.

(** ** The further statements on concrete documents *)

Lemma detected_span_shape_witness :
  detectSpan Sample.headingRE (Sample.plain Sample.pipeDoc) 1 = Found Sample.pipeSpan
  /\ firstLine Sample.pipeSpan < lastLine Sample.pipeSpan
  /\ lastLine Sample.pipeSpan < Host.lineCount (Sample.plain Sample.pipeDoc)
  /\ (firstLine Sample.pipeSpan = 1 \/ (0 < 1 /\ firstLine Sample.pipeSpan = 1 - 1))
  /\ 1 <= lastLine Sample.pipeSpan
  /\ forall n, inside Sample.pipeSpan n -> n <> 1 ->
               nonBlankAt (Sample.plain Sample.pipeDoc) n.
Proof.
  assert (D : detectSpan Sample.headingRE (Sample.plain Sample.pipeDoc) 1
              = Found Sample.pipeSpan) by (vm_compute; reflexivity).
  split; [exact D|].
  exact (detected_span_shape Sample.headingRE (Sample.plain Sample.pipeDoc) 1
           Sample.pipeSpan D).
Defined.

Lemma detected_span_dialect_witness :
  detectSpan Sample.headingRE (Sample.plain Sample.gridDoc) 0 = Found (mkSpan 0 2 grid)
  /\ exists m,
       execLine Sample.headingRE (Host.getLine (Sample.plain Sample.gridDoc) 0) = Some m
       /\ (group1 m = false /\ group2 m = true /\ 0 = 0)
       /\ (grid = simple -> 0 = 0 ->
           alt1At Sample.headingRE (Sample.plain Sample.gridDoc) 2)
       /\ (grid <> simple \/ 0 < 0 -> blankAt (Sample.plain Sample.gridDoc) 3).
Proof.
  assert (D : detectSpan Sample.headingRE (Sample.plain Sample.gridDoc) 0
              = Found (mkSpan 0 2 grid)) by (vm_compute; reflexivity).
  split; [exact D|].
  exact (detected_span_dialect Sample.headingRE (Sample.plain Sample.gridDoc) 0
           (mkSpan 0 2 grid) D).
Defined.

Lemma grid_rule_span_witness :
  (firstBlankAt (Sample.plain Sample.gridDoc) 1 3
   /\ detectSpan Sample.headingRE (Sample.plain Sample.gridDoc) 0
      = Found (mkSpan 0 2 grid))
  /\ (blankAt (Sample.plain Sample.bareRuleDoc) 1
      /\ detectSpan Sample.headingRE (Sample.plain Sample.bareRuleDoc) 0 = NoTable).
Proof.
  assert (M : Sample.headingRE "+---+---+" = Some (mkMatch false true false))
    by (vm_compute; reflexivity).
  assert (K : firstBlankAt (Sample.plain Sample.gridDoc) (0 + 1) 3).
  { split; [lia|]. split.
    - exists "". split; vm_compute; reflexivity.
    - intros n Hn. assert (E : n = 1 \/ n = 2) by lia. destruct E as [->| ->].
      + exists "| a | b |". split; vm_compute; reflexivity.
      + exists "+---+---+". split; vm_compute; reflexivity. }
  assert (B : blankAt (Sample.plain Sample.bareRuleDoc) (0 + 1)).
  { exists "". split; vm_compute; reflexivity. }
  split.
  - split; [exact K|].
    refine (proj1 (grid_rule_span Sample.headingRE (Sample.plain Sample.gridDoc) 0
                     "+---+---+" (mkMatch false true false)
                     eq_refl M eq_refl eq_refl) 3 K _).
    lia.
  - split; [exact B|].
    exact (proj2 (grid_rule_span Sample.headingRE (Sample.plain Sample.bareRuleDoc) 0
                    "+---+---+" (mkMatch false true false)
                    eq_refl M eq_refl eq_refl) B).
Defined.

Lemma unterminated_table_not_detected_witness :
  Host.getLine (Sample.plain Sample.unterminatedDoc) 1 = Some "| - | - |"
  /\ (forall n, 1 <= n -> n < Host.lineCount (Sample.plain Sample.unterminatedDoc) ->
                nonBlankAt (Sample.plain Sample.unterminatedDoc) n)
  /\ detectSpan Sample.headingRE (Sample.plain Sample.unterminatedDoc) 1 = NoTable.
Proof.
  assert (G : Host.getLine (Sample.plain Sample.unterminatedDoc) 1 = Some "| - | - |")
    by reflexivity.
  assert (M : Sample.headingRE "| - | - |" = Some (mkMatch false false true))
    by (vm_compute; reflexivity).
  assert (A : forall n, 1 <= n ->
                n < Host.lineCount (Sample.plain Sample.unterminatedDoc) ->
                nonBlankAt (Sample.plain Sample.unterminatedDoc) n).
  { intros n Hlo Hhi.
    assert (E : n = 1 \/ n = 2) by (vm_compute in Hhi; lia). destruct E as [->| ->].
    - exists "| - | - |". split; vm_compute; reflexivity.
    - exists "| 1 | 2 |". split; vm_compute; reflexivity. }
  split; [exact G|]. split; [exact A|].
  exact (unterminated_table_not_detected Sample.headingRE
           (Sample.plain Sample.unterminatedDoc) 1 "| - | - |"
           (mkMatch false false true) G M A (or_introl eq_refl)).
Defined.

Lemma marker_overlap_rejected_witness :
  candidate Sample.headingRE (cm (Sample.stateAfter Sample.pipeStart)) 1
  = Found Sample.pipeSpan
  /\ ~ inside Sample.pipeSpan (line (cursor (cm (Sample.stateAfter Sample.pipeStart))))
  /\ In Sample.pipeMarker (marks (cm (Sample.stateAfter Sample.pipeStart)))
  /\ iteration Sample.headingRE Sample.fromRows (Sample.stateAfter Sample.pipeStart) 1
     = (Sample.stateAfter Sample.pipeStart, 2, Rejected Sample.pipeSpan MarkerPresent).
Proof.
  assert (C : candidate Sample.headingRE (cm (Sample.stateAfter Sample.pipeStart)) 1
              = Found Sample.pipeSpan) by (vm_compute; reflexivity).
  assert (Cu : ~ inside Sample.pipeSpan
                 (line (cursor (cm (Sample.stateAfter Sample.pipeStart))))).
  { intros (_ & H). vm_compute in H. lia. }
  assert (I : In Sample.pipeMarker (marks (cm (Sample.stateAfter Sample.pipeStart))))
    by (left; reflexivity).
  split; [exact C|]. split; [exact Cu|]. split; [exact I|].
  refine (marker_overlap_rejected Sample.headingRE Sample.Rows Sample.fromRows
            (Sample.stateAfter Sample.pipeStart) 1 Sample.pipeSpan "| 1 | 2 |"
            Sample.pipeMarker C Cu _ I _); reflexivity.
Defined.

Lemma rendered_tables_are_checked_witness :
  Sample.run Sample.pipeStart
  = Some (Sample.stateAfter Sample.pipeStart, Sample.traceOf Sample.pipeStart)
  /\ In (1, Rendered Sample.pipeSpan Sample.pipeTable 0) (Sample.traceOf Sample.pipeStart)
  /\ Sample.fromRows (JsString.join (spanLines (cm Sample.pipeStart) Sample.pipeSpan)) pipe
     = inl (widget Sample.pipeTable).
Proof.
  assert (H : Sample.run Sample.pipeStart
              = Some (Sample.stateAfter Sample.pipeStart,
                      Sample.traceOf Sample.pipeStart))
    by (vm_compute; reflexivity).
  assert (I : In (1, Rendered Sample.pipeSpan Sample.pipeTable 0)
                 (Sample.traceOf Sample.pipeStart))
    by (right; left; reflexivity).
  split; [exact H|]. split; [exact I|].
  exact (proj2 (proj2 (proj2 (proj2 (proj2 (proj2 (proj2
           (rendered_tables_are_checked Sample.headingRE Sample.Rows Sample.fromRows
              Sample.pipeStart _ _ 1 Sample.pipeSpan Sample.pipeTable 0 H I)))))))).
Defined.

Lemma pass_final_state_witness :
  Sample.run Sample.twoTablesStart
  = Some (Sample.stateAfter Sample.twoTablesStart,
          Sample.traceOf Sample.twoTablesStart)
  /\ tables (Sample.stateAfter Sample.twoTablesStart)
     = instancesOf (Sample.traceOf Sample.twoTablesStart)
  /\ lines (cm (Sample.stateAfter Sample.twoTablesStart)) = Sample.twoTablesDoc.
Proof.
  assert (H : Sample.run Sample.twoTablesStart
              = Some (Sample.stateAfter Sample.twoTablesStart,
                      Sample.traceOf Sample.twoTablesStart))
    by (vm_compute; reflexivity).
  split; [exact H|].
  rewrite (pass_final_state Sample.headingRE Sample.Rows Sample.fromRows
             Sample.twoTablesStart _ _ H).
  split; reflexivity.
Defined.

Lemma second_pass_renders_nothing_witness :
  Sample.run Sample.pipeStart
  = Some (Sample.stateAfter Sample.pipeStart, Sample.traceOf Sample.pipeStart)
  /\ exists final2 tr2,
       Sample.run (Sample.stateAfter Sample.pipeStart) = Some (final2, tr2)
       /\ cm final2 = cm (Sample.stateAfter Sample.pipeStart)
       /\ tables final2 = tables (Sample.stateAfter Sample.pipeStart)
       /\ map fst tr2 = map fst (Sample.traceOf Sample.pipeStart)
       /\ forall k o, In (k, o) tr2 -> ~ rendered o.
Proof.
  assert (H : Sample.run Sample.pipeStart
              = Some (Sample.stateAfter Sample.pipeStart,
                      Sample.traceOf Sample.pipeStart))
    by (vm_compute; reflexivity).
  split; [exact H|].
  exact (second_pass_renders_nothing Sample.headingRE Sample.Rows Sample.fromRows
           Sample.pipeStart _ _ H).
Defined.

Lemma write_back_replaces_bound_lines_witness :
  coversLines (cm (Sample.stateAfter Sample.pipeStart)) 0 0 2
  /\ exists st',
       onBlur Sample.toMarkdown GoneFalse (Some 0) Sample.pipeTable
              (Sample.stateAfter Sample.pipeStart) = Normal st'
       /\ lines (cm st')
          = firstn 0 (lines (cm (Sample.stateAfter Sample.pipeStart)))
            ++ JsString.split (JsString.dropLast
                                 (Sample.toMarkdown (widget Sample.pipeTable)))
            ++ skipn 3 (lines (cm (Sample.stateAfter Sample.pipeStart)))
       /\ console st' = console (Sample.stateAfter Sample.pipeStart)
       /\ clearedMarker (cm st') 0.
Proof.
  assert (C : coversLines (cm (Sample.stateAfter Sample.pipeStart)) 0 0 2).
  { exists Sample.pipeMarker, "| 1 | 2 |". repeat split; vm_compute; reflexivity. }
  split; [exact C|].
  exact (write_back_replaces_bound_lines Sample.Rows Sample.toMarkdown GoneFalse
           (Sample.stateAfter Sample.pipeStart) Sample.pipeTable 0 0 2 C).
Defined.

Lemma write_back_round_trip_witness :
  iteration Sample.headingRE Sample.fromRows Sample.pipeStart 1
  = (Sample.stateAfter Sample.pipeStart, 2,
     Rendered Sample.pipeSpan Sample.pipeTable 0)
  /\ Forall (fun l => hasNewline l = false) (lines (cm Sample.pipeStart))
  /\ Sample.toMarkdown (widget Sample.pipeTable)
     = (JsString.join (spanLines (cm Sample.pipeStart) Sample.pipeSpan)
          ++ JsString.newline)%string
  /\ exists st'',
       onBlur Sample.toMarkdown GoneFalse (Some 0) Sample.pipeTable
              (Sample.stateAfter Sample.pipeStart) = Normal st''
       /\ lines (cm st'') = lines (cm Sample.pipeStart).
Proof.
  assert (It : iteration Sample.headingRE Sample.fromRows Sample.pipeStart 1
               = (Sample.stateAfter Sample.pipeStart, 2,
                  Rendered Sample.pipeSpan Sample.pipeTable 0))
    by (vm_compute; reflexivity).
  assert (N : Forall (fun l => hasNewline l = false) (lines (cm Sample.pipeStart)))
    by (repeat constructor).
  assert (S : Sample.toMarkdown (widget Sample.pipeTable)
              = (JsString.join (spanLines (cm Sample.pipeStart) Sample.pipeSpan)
                   ++ JsString.newline)%string)
    by (vm_compute; reflexivity).
  split; [exact It|]. split; [exact N|]. split; [exact S|].
  exact (write_back_round_trip Sample.headingRE Sample.Rows Sample.fromRows
           Sample.toMarkdown GoneFalse Sample.pipeStart 1 _ 2 Sample.pipeSpan
           Sample.pipeTable 0 It N S).
Defined.

Lemma write_back_second_firing_witness :
  liveMarker (cm (Sample.stateAfter Sample.pipeStart)) 0
  /\ exists st',
       onBlur Sample.toMarkdown codeMirrorFind (Some 0) Sample.pipeTable
              (Sample.stateAfter Sample.pipeStart) = Normal st'
       /\ clearedMarker (cm st') 0
       /\ onBlur Sample.toMarkdown codeMirrorFind (Some 0) Sample.pipeTable st'
          = Throw "TypeError".
Proof.
  assert (L : liveMarker (cm (Sample.stateAfter Sample.pipeStart)) 0).
  { exists Sample.pipeMarker. split; vm_compute; reflexivity. }
  split; [exact L|].
  exact (write_back_second_firing Sample.Rows Sample.toMarkdown codeMirrorFind
           (Sample.stateAfter Sample.pipeStart) Sample.pipeTable Sample.pipeTable 0 L).
Defined.

Lemma write_back_removes_registered_witness :
  liveMarker (cm (Sample.stateAfter Sample.twoTablesStart)) 1
  /\ tables (Sample.stateAfter Sample.twoTablesStart)
     = [mkInstance 0 ["| A | B |"; "| - | - |"]] ++ Sample.secondTable :: []
  /\ exists st',
       onBlur Sample.toMarkdown GoneFalse (Some 1) Sample.secondTable
              (Sample.stateAfter Sample.twoTablesStart) = Normal st'
       /\ tables st' = [mkInstance 0 ["| A | B |"; "| - | - |"]] ++ []
       /\ ~ registered (tables st') Sample.secondTable.
Proof.
  assert (L : liveMarker (cm (Sample.stateAfter Sample.twoTablesStart)) 1).
  { exists (mkMarker (mkPos 3 0) (mkPos 4 9) 1 false). split; vm_compute; reflexivity. }
  assert (T : tables (Sample.stateAfter Sample.twoTablesStart)
              = [mkInstance 0 ["| A | B |"; "| - | - |"]] ++ Sample.secondTable :: [])
    by (vm_compute; reflexivity).
  split; [exact L|]. split; [exact T|].
  refine (write_back_removes_registered Sample.Rows Sample.toMarkdown GoneFalse
            (Sample.stateAfter Sample.twoTablesStart) Sample.secondTable 1
            [mkInstance 0 ["| A | B |"; "| - | - |"]] Sample.secondTable [] L T _ eq_refl _).
  - discriminate.
  - intros y [[<-|[]]|[]]. simpl. lia.
Defined.

Lemma write_back_unregistered_drops_last_witness :
  liveMarker (cm (Sample.stateAfter Sample.pipeStart)) 0
  /\ tables (Sample.stateAfter Sample.pipeStart) = [] ++ [Sample.pipeTable]
  /\ exists st',
       onBlur Sample.toMarkdown GoneFalse (Some 0) Sample.strayTable
              (Sample.stateAfter Sample.pipeStart) = Normal st'
       /\ tables st' = [].
Proof.
  assert (L : liveMarker (cm (Sample.stateAfter Sample.pipeStart)) 0).
  { exists Sample.pipeMarker. split; vm_compute; reflexivity. }
  assert (T : tables (Sample.stateAfter Sample.pipeStart) = [] ++ [Sample.pipeTable])
    by (vm_compute; reflexivity).
  split; [exact L|]. split; [exact T|].
  refine (write_back_unregistered_drops_last Sample.Rows Sample.toMarkdown GoneFalse
            (Sample.stateAfter Sample.pipeStart) Sample.strayTable 0 []
            Sample.pipeTable L T _).
  intros y Hy. rewrite T in Hy. destruct Hy as [<-|[]]. simpl. lia.
Defined.

Lemma inserted_table_is_detected_witness :
  Sample.headingRE "| | |" = Some (mkMatch false false true)
  /\ detectSpan Sample.headingRE
       (markdownInsertTable Sample.noteEditor (cursor Sample.noteEditor)) 2
     = Found (mkSpan 1 2 pipe)
  /\ ~ inside (mkSpan 1 2 pipe)
         (line (cursor (markdownInsertTable Sample.noteEditor
                          (cursor Sample.noteEditor)))).
Proof.
  assert (M : Sample.headingRE "| | |" = Some (mkMatch false false true))
    by (vm_compute; reflexivity).
  split; [exact M|].
  exact (inserted_table_is_detected Sample.headingRE Sample.noteEditor
           (mkMatch false false true) eq_refl M eq_refl eq_refl eq_refl).
Defined.

Lemma missing_leaf_shows_empty_pane_witness :
  (forall leaf, In leaf (EditorPane.paneData SamplePane.paneStore) ->
                EditorPane.id leaf <> EditorPane.leafId nat SamplePane.lostPane)
  /\ EditorPane.renderChildren nat SamplePane.lostPane SamplePane.paneStore
     = [EditorPane.DocumentTabs "gone" "main"; EditorPane.EmptyPane].
Proof.
  assert (H : forall leaf, In leaf (EditorPane.paneData SamplePane.paneStore) ->
                EditorPane.id leaf <> EditorPane.leafId nat SamplePane.lostPane).
  { intros leaf [<-|[<-|[]]]; simpl; discriminate. }
  split; [exact H|].
  exact (proj2 (proj2 (proj2 (proj2
           (missing_leaf_shows_empty_pane nat SamplePane.lostPane
              SamplePane.paneStore H))))).
Defined.

Lemma node_is_first_leaf_with_id_witness :
  EditorPane.paneData SamplePane.paneStore
  = [SamplePane.leftLeaf] ++ SamplePane.rightLeaf :: []
  /\ EditorPane.computedNode nat SamplePane.rightPane SamplePane.paneStore
     = Some SamplePane.rightLeaf
  /\ EditorPane.computedActiveFile nat SamplePane.rightPane SamplePane.paneStore
     = Some SamplePane.fileB
  /\ EditorPane.computedOpenFiles nat SamplePane.rightPane SamplePane.paneStore
     = [SamplePane.fileA; SamplePane.fileB].
Proof.
  split; [reflexivity|].
  refine (node_is_first_leaf_with_id nat SamplePane.rightPane SamplePane.paneStore
            [SamplePane.leftLeaf] SamplePane.rightLeaf [] eq_refl _ eq_refl).
  intros other [<-|[]]. simpl. discriminate.
Defined.

Lemma pane_shows_one_editor_or_empty_pane_witness :
  NoDup (map EditorPane.path
           (EditorPane.computedOpenFiles nat SamplePane.rightPane SamplePane.paneStore))
  /\ List.length (filter EditorPane.isShownEditor
                    (EditorPane.renderChildren nat SamplePane.rightPane
                       SamplePane.paneStore)) <= 1
  /\ (EditorPane.computedActiveFile nat SamplePane.lostPane SamplePane.paneStore = None
      /\ filter EditorPane.isShownEditor
           (EditorPane.renderChildren nat SamplePane.lostPane SamplePane.paneStore) = []).
Proof.
  assert (N : NoDup (map EditorPane.path
                       (EditorPane.computedOpenFiles nat SamplePane.rightPane
                          SamplePane.paneStore))).
  { simpl. constructor.
    - intros [H|[]]. discriminate.
    - constructor; [intros []|constructor]. }
  split; [exact N|]. split.
  - exact (proj2 (proj2 (proj2
             (pane_shows_one_editor_or_empty_pane nat SamplePane.rightPane
                SamplePane.paneStore))) N).
  - split; [reflexivity|].
    exact (proj1 (proj2 (proj2
             (pane_shows_one_editor_or_empty_pane nat SamplePane.lostPane
                SamplePane.paneStore))) eq_refl).
Defined.
